(** * GHAS licensing by tool: a shallow embedding of [ghas-licensing-by-tool.js]

    The program is one asynchronous [main]: it parses its arguments, asks the
    billing endpoint for the enterprise statistics and for the per-repository
    committer breakdown, walks over the (optionally organisation-filtered)
    repositories deciding for each one whether secret scanning and code
    scanning are enabled, accumulates committer logins in two [Set]s and
    prints a report.

    The embedding keeps that shape.  Network requests are answers of an
    oracle ([Api]); every request either returns a response or throws.  The
    mutable variables of [main] (the two sets, the counter), the lines written
    by [console.log] and the requests issued so far form an explicit [State]
    that is threaded through the loop.  [continue] and uncaught exceptions
    are the constructors of [Ctl]. *)

From Stdlib Require Import String Ascii List Bool Arith ZArith Lia.
From Stdlib Require Import DecimalString Sorting Permutation.
Import ListNotations.

Local Open Scope string_scope.
Local Open Scope list_scope.

(** ** Results of requests and of property accesses *)

(** A request (or a property read on [undefined]) either yields a value or
    throws. *)
Inductive result (A : Type) : Type :=
| Ok (a : A)
| Throw.
Arguments Ok {A} a.
Arguments Throw {A}.

Definition is_ok {A} (r : result A) : bool :=
  match r with Ok _ => true | Throw => false end.

(** ** Data model: the JSON documents the program reads *)

(** An entry of [advanced_security_committers_breakdown]. *)
Record Committer := mkCommitter {
  user_login : string;
  last_pushed_date : string
}.

(** An element of the [repositories] array of the billing endpoint. *)
Record RepoBilling := mkRepoBilling {
  name : string;
  advanced_security_committers_breakdown : list Committer
}.

(** [stats.data] of the billing endpoint. *)
Record BillingStats := mkBillingStats {
  total_advanced_security_committers : Z;
  maximum_advanced_security_committers : Z;
  purchased_advanced_security_committers : Z
}.

(** [config.data.configuration]. *)
Record Configuration := mkConfiguration {
  secret_scanning : string;
  code_scanning_default_setup : string
}.

(** [config.data]: [configuration] may be absent. *)
Record ConfigData := mkConfigData {
  status : string;
  configuration : option Configuration
}.

(** The response of the code-security-configuration request; a response
    without content has no [data]. *)
Record ConfigResponse := mkConfigResponse {
  config_data : option ConfigData
}.

(** [repoSettings.data.security_and_analysis.secret_scanning]. *)
Record ToolStatus := mkToolStatus {
  tool_status : string
}.

(** [repoSettings.data.security_and_analysis]. *)
Record SecurityAndAnalysis := mkSecurityAndAnalysis {
  sa_secret_scanning : option ToolStatus
}.

(** The response of [octokit.repos.get]: its HTTP status and, in [data],
    the optional [security_and_analysis] object. *)
Record RepoSettings := mkRepoSettings {
  http_status : Z;
  security_and_analysis : option SecurityAndAnalysis
}.

(** One code-scanning analysis; only the number of analyses is read. *)
Record Analysis := mkAnalysis {
  analysis_id : Z
}.

(** The response of [listRecentAnalyses]; [data] may be absent. *)
Record AnalysesResponse := mkAnalysesResponse {
  analyses_data : option (list Analysis)
}.

(** The remote service.  The repository requests are keyed by the [owner]
    and [repo] the program puts in the request; [repo] is [undefined] when
    the full name holds no slash. *)
Record Api := mkApi {
  billing_stats : string -> result BillingStats;
  billing_repos : string -> result (list RepoBilling);
  code_security_configuration : string -> option string -> result ConfigResponse;
  repos_get : string -> option string -> result RepoSettings;
  listRecentAnalyses : string -> option string -> result AnalysesResponse
}.

(** [argv] as [minimist] returns it. *)
Record Argv := mkArgv {
  enterprise : option string;
  org : option string;
  verbose : bool;
  help : bool
}.

(** ** JavaScript helpers *)

(** Truthiness of an optional string: [undefined] and the empty string are
    falsy. *)
Definition truthy (o : option string) : bool :=
  match o with
  | None => false
  | Some s => negb (s =? "")
  end.

(** The string a template literal puts for an optional string. *)
Definition template (o : option string) : string :=
  match o with
  | None => "undefined"
  | Some s => s
  end.

(** [s.split("/")], with the piece being read kept in [cur]. *)
Fixpoint split_from (cur : string) (s : string) : list string :=
  match s with
  | EmptyString => [cur]
  | String c rest =>
      if Ascii.eqb c "/"%char
      then cur :: split_from "" rest
      else split_from (cur ++ String c "") rest
  end.

Definition split_slash (s : string) : list string := split_from "" s.

(** Decimal rendering of numbers in template literals. *)
Definition show_nat (n : nat) : string :=
  NilZero.string_of_uint (Nat.to_uint n).

Definition show_Z (z : Z) : string :=
  NilZero.string_of_int (Z.to_int z).

(** *** [Set] of strings

    A JavaScript [Set] keeps its members in insertion order and [add] of a
    member already present changes nothing.  [Array.from] lists the members
    in that order. *)
Definition JsSet := list string.

Definition set_has (s : JsSet) (x : string) : bool :=
  existsb (String.eqb x) s.

Definition set_add (s : JsSet) (x : string) : JsSet :=
  if set_has s x then s else s ++ [x].

(** [committers.forEach(c => set.add(c.user_login))]. *)
Definition add_committers (s : JsSet) (committers : list Committer) : JsSet :=
  fold_left (fun acc c => set_add acc (user_login c)) committers s.

(** *** [Array.prototype.sort] without comparator

    Strings are compared by code units, a proper prefix first; with one
    [ascii] per code unit that is [String.compare].  The language fixes the
    result of [sort] (a stable sort), not the algorithm; the embedding
    inserts each element after the ones that are not greater. *)
Fixpoint sort_insert (x : string) (l : list string) : list string :=
  match l with
  | [] => [x]
  | y :: l' => if String.ltb x y then x :: l else y :: sort_insert x l'
  end.

Definition js_sort (l : list string) : list string :=
  fold_left (fun acc x => sort_insert x acc) l [].

(** The order [sort] arranges strings in. *)
Definition lex_le (a b : string) : Prop := (a <=? b)%string = true.

(** ** State and control *)

(** The requests the program sends. *)
Inductive Request :=
| ReqBillingStats (enterprise : string)
| ReqBillingRepos (enterprise : string)
| ReqConfiguration (owner : string) (repo : option string)
| ReqRepoSettings (owner : string) (repo : option string)
| ReqAnalyses (owner : string) (repo : option string).

(** The variables [main] mutates, with the lines printed and the requests
    sent so far (oldest first). *)
Record State := mkState {
  out : list string;
  requests : list Request;
  secretProtectionCommitters : JsSet;
  codeScanningCommitters : JsSet;
  successfullyProcessed : nat
}.

Definition init : State := mkState [] [] [] [] 0.

(** [console.log(line)]. *)
Definition log (st : State) (line : string) : State :=
  mkState (out st ++ [line]) (requests st)
          (secretProtectionCommitters st) (codeScanningCommitters st)
          (successfullyProcessed st).

Definition send (st : State) (r : Request) : State :=
  mkState (out st) (requests st ++ [r])
          (secretProtectionCommitters st) (codeScanningCommitters st)
          (successfullyProcessed st).

(** [successfullyProcessed++]. *)
Definition incr (st : State) : State :=
  mkState (out st) (requests st)
          (secretProtectionCommitters st) (codeScanningCommitters st)
          (successfullyProcessed st + 1).

Definition add_secret (st : State) (committers : list Committer) : State :=
  mkState (out st) (requests st)
          (add_committers (secretProtectionCommitters st) committers)
          (codeScanningCommitters st)
          (successfullyProcessed st).

Definition add_code (st : State) (committers : list Committer) : State :=
  mkState (out st) (requests st)
          (secretProtectionCommitters st)
          (add_committers (codeScanningCommitters st) committers)
          (successfullyProcessed st).

(** How a piece of the loop body ends: it falls through with a value, it
    executes [continue], or an exception leaves [main]. *)
Inductive Step (A : Type) : Type :=
| Go (a : A)
| Skip
| Abort.
Arguments Go {A} a.
Arguments Skip {A}.
Arguments Abort {A}.

(** How one iteration ends. *)
Inductive Ctl :=
| Normal (st : State)
| Continue (st : State)
| Uncaught (st : State).

(** How the [for] loop ends. *)
Inductive LoopResult :=
| LoopDone (st : State)
| LoopUncaught (st : State).

(** How the process ends: [process.exit(code)], a rejected [main()], or
    [main] returning. *)
Inductive Outcome :=
| Exited (code : Z) (printed : list string)
| Rejected (st : State)
| Returned (st : State).

(** ** The program *)

Section Main.

Variable argv : Argv.
Variable api : Api.

(** [owner !== argv.org]. *)
Definition strict_neq (owner : string) (o : option string) : bool :=
  match o with
  | None => true
  | Some s => negb (owner =? s)
  end.

(** Lines 89-91: the repositories the loop walks over. *)
Definition filteredRepos (repos : list RepoBilling) : list RepoBilling :=
  if truthy (org argv)
  then filter (fun repo => prefix (template (org argv) ++ "/") (name repo)) repos
  else repos.

(** [const [owner, repo] = name.split("/")]. *)
Definition owner_of (name : string) : string := hd "" (split_slash name).
Definition repo_of (name : string) : option string := nth_error (split_slash name) 1.

(** Lines 116-141, the body of the [try]: the two flags after line 139, or
    [Throw] when the request or a property read throws. *)
Definition try_configuration (owner : string) (repo : option string)
  : result (bool * bool) :=
  let secretProtectionEnabled := false in
  let codeScanningEnabled := false in
  match code_security_configuration api owner repo with
  | Throw => Throw
  | Ok config =>
      match config_data config with
      | None => Throw
      | Some data =>
          if status data =? "attached" then
            match configuration data with
            | None => Throw
            | Some conf =>
                let secretProtectionEnabled :=
                  if secret_scanning conf =? "enabled"
                  then true else secretProtectionEnabled in
                let codeScanningEnabled :=
                  if code_scanning_default_setup conf =? "enabled"
                  then true else codeScanningEnabled in
                Ok (secretProtectionEnabled, codeScanningEnabled)
            end
          else Ok (secretProtectionEnabled, codeScanningEnabled)
      end
  end.

(** Lines 151-167: the value of [secretProtectionEnabled] at line 169.  The
    request is outside any [try]. *)
Definition secret_fallback (name : string) (secretProtectionEnabled : bool)
  : Step bool :=
  if negb secretProtectionEnabled then
    match repos_get api (owner_of name) (repo_of name) with
    | Throw => Abort
    | Ok repoSettings =>
        if negb (http_status repoSettings =? 200)%Z then Skip
        else
          match security_and_analysis repoSettings with
          | None => Abort
          | Some securityAndAnalysis =>
              match sa_secret_scanning securityAndAnalysis with
              | None => Abort
              | Some s =>
                  if tool_status s =? "enabled" then Go true
                  else Go secretProtectionEnabled
              end
          end
    end
  else Go secretProtectionEnabled.

(** Lines 175-189: the value of [codeScanningEnabled] at line 191;
    [analyses?.data?.length > 0] is false when [data] is absent. *)
Definition code_probe (owner : string) (repo : option string)
  (codeScanningEnabled : bool) : Step bool :=
  if negb codeScanningEnabled then
    match listRecentAnalyses api owner repo with
    | Throw => Skip
    | Ok analyses =>
        match analyses_data analyses with
        | Some data =>
            if (0 <? length data)%nat then Go true else Go codeScanningEnabled
        | None => Go codeScanningEnabled
        end
    end
  else Go codeScanningEnabled.

(** Lines 110-113: what the loop does on an owner mismatch. *)
Definition mismatch_branch (st : State) : Ctl :=
  if verbose argv then Continue st else Continue st.

(** Lines 99-196: one iteration, with [on_mismatch] for lines 110-113.  [i]
    is the position of [repo_data] in [filteredRepos]: the elements are
    distinct objects, so that is what [indexOf] returns. *)
Definition loop_body_with (on_mismatch : State -> Ctl)
  (st : State) (i : nat) (repo_data : RepoBilling) : Ctl :=
  let st :=
    if verbose argv
    then log st ("Repo " ++ show_nat (i + 1) ++ ": " ++ name repo_data)
    else st in
  let name := name repo_data in
  let committers := advanced_security_committers_breakdown repo_data in
  let owner := owner_of name in
  let repo := repo_of name in
  if truthy (org argv) && strict_neq owner (org argv) then on_mismatch st
  else
    let st := send st (ReqConfiguration owner repo) in
    match try_configuration owner repo with
    | Throw =>
        let st :=
          if verbose argv
          then log st ("Error fetching code security configuration for " ++ name)
          else st in
        Continue st
    | Ok (secretProtectionEnabled, codeScanningEnabled) =>
        let st := incr st in
        let st :=
          if negb secretProtectionEnabled
          then send st (ReqRepoSettings (owner_of name) (repo_of name))
          else st in
        match secret_fallback name secretProtectionEnabled with
        | Abort => Uncaught st
        | Skip => Continue (log st ("Error fetching repo settings for " ++ name))
        | Go secretProtectionEnabled =>
            let st :=
              if secretProtectionEnabled then add_secret st committers else st in
            let st :=
              if negb codeScanningEnabled
              then send st (ReqAnalyses owner repo)
              else st in
            match code_probe owner repo codeScanningEnabled with
            | Abort => Uncaught st
            | Skip => Continue st
            | Go codeScanningEnabled =>
                Normal (if codeScanningEnabled then add_code st committers else st)
            end
        end
    end.

Definition loop_body : State -> nat -> RepoBilling -> Ctl :=
  loop_body_with mismatch_branch.

(** The [for ... of] loop from position [i] on, over a given body. *)
Fixpoint run_loop_with (body : State -> nat -> RepoBilling -> Ctl)
  (st : State) (i : nat) (rs : list RepoBilling) : LoopResult :=
  match rs with
  | [] => LoopDone st
  | repo_data :: rs' =>
      match body st i repo_data with
      | Normal st' => run_loop_with body st' (S i) rs'
      | Continue st' => run_loop_with body st' (S i) rs'
      | Uncaught st' => LoopUncaught st'
      end
  end.

Definition run_loop : State -> nat -> list RepoBilling -> LoopResult :=
  run_loop_with loop_body.

(** Lines 198-219: the report; [n] is [filteredRepos.length]. *)
Definition report (st : State) (n : nat) : State :=
  let secretProtectionArray := secretProtectionCommitters st in
  let codeScanningArray := codeScanningCommitters st in
  let st := log st "" in
  let st := log st ("Successfully processed repositories: "
                    ++ show_nat (successfullyProcessed st)
                    ++ " out of " ++ show_nat n) in
  let st := log st ("Secret protection: " ++ show_nat (length secretProtectionArray)) in
  let st := log st ("Code security: " ++ show_nat (length codeScanningArray)) in
  if verbose argv then
    let st := log st "Secret protection committers:" in
    let st := fold_left (fun st committer => log st (" - " ++ committer))
                        (js_sort secretProtectionArray) st in
    let st := log st "Code scanning committers:" in
    fold_left (fun st committer => log st (" - " ++ committer))
              (js_sort codeScanningArray) st
  else st.

Definition usage : list string :=
  ["Usage: node ghas-licensing-by-tool.js --enterprise <enterprise> [--org <organization>]";
   "Example: node ghas-licensing-by-tool.js --enterprise my-enterprise --org my-org"].

(** Lines 44-219, over a given loop body. *)
Definition main_with (body : State -> nat -> RepoBilling -> Ctl) : Outcome :=
  if help argv || negb (truthy (enterprise argv)) then Exited 1 usage
  else
    let enterprise := template (enterprise argv) in
    let st := send init (ReqBillingStats enterprise) in
    match billing_stats api enterprise with
    | Throw => Rejected st
    | Ok stats =>
        let st := log st ("Total active committers: "
                          ++ show_Z (total_advanced_security_committers stats)) in
        let st := log st ("Max active committers: "
                          ++ show_Z (maximum_advanced_security_committers stats)) in
        let st := log st ("Purchased committers: "
                          ++ show_Z (purchased_advanced_security_committers stats)) in
        let st := log st "" in
        let st := send st (ReqBillingRepos enterprise) in
        match billing_repos api enterprise with
        | Throw => Rejected st
        | Ok repos =>
            let filteredRepos := filteredRepos repos in
            let st := log st ("Number of repos: " ++ show_nat (length filteredRepos)) in
            let st := log st "" in
            match run_loop_with body st 0 filteredRepos with
            | LoopUncaught st => Rejected st
            | LoopDone st => Returned (report st (length filteredRepos))
            end
        end
    end.

(** The program. *)
Definition main : Outcome := main_with loop_body.

(** *** The specification's reading of lines 110-113

    The specification treats the owner mismatch as one unconditional skip. *)
Definition single_skip (st : State) : Ctl := Continue st.

Definition main_single_skip : Outcome :=
  main_with (loop_body_with single_skip).

(** ** What an iteration decides about a repository *)

(** The test of line 109. *)
Definition owner_mismatch (r : RepoBilling) : bool :=
  truthy (org argv) && strict_neq (owner_of (name r)) (org argv).

(** Step 1 succeeds for [r]: the configuration request is sent and the
    body of the [try] runs to its end. *)
Definition configuration_ok (r : RepoBilling) : bool :=
  negb (owner_mismatch r)
  && is_ok (try_configuration (owner_of (name r)) (repo_of (name r))).

(** The value of [secretProtectionEnabled] that line 169 tests in the
    iteration of [r]; [None] when the iteration ends before that line. *)
Definition secret_verdict (r : RepoBilling) : option bool :=
  if owner_mismatch r then None
  else
    match try_configuration (owner_of (name r)) (repo_of (name r)) with
    | Throw => None
    | Ok (s, _) =>
        match secret_fallback (name r) s with
        | Go s' => Some s'
        | _ => None
        end
    end.

(** The value of [codeScanningEnabled] that line 191 tests in the iteration
    of [r]; [None] when the iteration ends before that line. *)
Definition code_verdict (r : RepoBilling) : option bool :=
  if owner_mismatch r then None
  else
    match try_configuration (owner_of (name r)) (repo_of (name r)) with
    | Throw => None
    | Ok (s, c) =>
        match secret_fallback (name r) s with
        | Go _ =>
            match code_probe (owner_of (name r)) (repo_of (name r)) c with
            | Go c' => Some c'
            | _ => None
            end
        | _ => None
        end
    end.

(** The two tools and, for each, the set and the verdict that go with it. *)
Inductive Tool := SecretScanning | CodeScanning.

Definition committers_of (t : Tool) (st : State) : JsSet :=
  match t with
  | SecretScanning => secretProtectionCommitters st
  | CodeScanning => codeScanningCommitters st
  end.

Definition verdict (t : Tool) (r : RepoBilling) : option bool :=
  match t with
  | SecretScanning => secret_verdict r
  | CodeScanning => code_verdict r
  end.

(** [t] is determined enabled for [r]: the flag is true where the
    aggregation tests it. *)
Definition determined_enabled (t : Tool) (r : RepoBilling) : bool :=
  match verdict t r with
  | Some true => true
  | _ => false
  end.

Definition logins (r : RepoBilling) : list string :=
  map user_login (advanced_security_committers_breakdown r).

(** The repositories of [rs] where [t] is determined enabled and whose
    breakdown names [login]. *)
Definition qualifying (t : Tool) (login : string) (rs : list RepoBilling)
  : list RepoBilling :=
  filter (fun r => determined_enabled t r && existsb (String.eqb login) (logins r)) rs.

(** The state an iteration leaves, however it ends. *)
Definition ctl_state (c : Ctl) : State :=
  match c with
  | Normal st => st
  | Continue st => st
  | Uncaught st => st
  end.

End Main.

(** ** Vocabulary of the properties *)

(** The line of the report that gives the number of committers of [t]. *)
Definition count_line (t : Tool) (st : State) : string :=
  match t with
  | SecretScanning =>
      "Secret protection: " ++ show_nat (length (secretProtectionCommitters st))
  | CodeScanning =>
      "Code security: " ++ show_nat (length (codeScanningCommitters st))
  end.

(** The service [api] with [rs] as the answer of the repository listing. *)
Definition with_repos (api : Api) (rs : list RepoBilling) : Api :=
  mkApi (billing_stats api) (fun _ => Ok rs)
        (code_security_configuration api) (repos_get api)
        (listRecentAnalyses api).

(** [data] holds at least one analysis. *)
Definition has_analysis (a : AnalysesResponse) : bool :=
  match analyses_data a with
  | Some (_ :: _) => true
  | _ => false
  end.

(** ** Statements of the specification that the program does not satisfy

    Each is written down as the specification words it, about the iteration
    of a repository [r] started in state [st] at position [i]. *)

Section SpecStatements.

Variable argv : Argv.
Variable api : Api.

(** After a failed configuration fetch the counter is not incremented and
    both the direct-settings request and the analyses probe are still sent
    for the repository. *)
Definition fallbacks_run_after_config_failure
  (st : State) (i : nat) (r : RepoBilling) : Prop :=
  owner_mismatch argv r = false ->
  try_configuration api (owner_of (name r)) (repo_of (name r)) = Throw ->
  let st' := ctl_state (loop_body argv api st i r) in
  successfullyProcessed st' = successfullyProcessed st /\
  exists sent,
    requests st' = requests st ++ sent /\
    In (ReqRepoSettings (owner_of (name r)) (repo_of (name r))) sent /\
    In (ReqAnalyses (owner_of (name r)) (repo_of (name r))) sent.

(** Whenever [codeScanningEnabled] is still false after the configuration
    step, the analyses probe is sent. *)
Definition probe_runs_whenever_code_flag_false
  (st : State) (i : nat) (r : RepoBilling) : Prop :=
  forall s,
    owner_mismatch argv r = false ->
    try_configuration api (owner_of (name r)) (repo_of (name r)) = Ok (s, false) ->
    exists sent,
      requests (ctl_state (loop_body argv api st i r)) = requests st ++ sent /\
      In (ReqAnalyses (owner_of (name r)) (repo_of (name r))) sent.

End SpecStatements.

(** ** Sample runs *)

Module Sample.

Definition committer (login : string) : Committer :=
  mkCommitter login "2024-05-01T00:00:00Z".

Definition repo1 : RepoBilling :=
  mkRepoBilling "acme/repo1" [committer "alice"; committer "bob"].
Definition repo2 : RepoBilling :=
  mkRepoBilling "acme/repo2" [committer "bob"; committer "carol"].
Definition repo3 : RepoBilling :=
  mkRepoBilling "beta/repo3" [committer "dave"; committer "alice"].

Definition repos : list RepoBilling := [repo1; repo2; repo3].

Definition stats : BillingStats := mkBillingStats 50 60 70.

Definition attached (secret code : string) : result ConfigResponse :=
  Ok (mkConfigResponse
        (Some (mkConfigData "attached" (Some (mkConfiguration secret code))))).

Definition settings (code : Z) (secret : string) : result RepoSettings :=
  Ok (mkRepoSettings code
        (Some (mkSecurityAndAnalysis (Some (mkToolStatus secret))))).

Definition analyses (n : nat) : result AnalysesResponse :=
  Ok (mkAnalysesResponse (Some (repeat (mkAnalysis 1) n))).

(** [acme/repo1] has secret scanning enabled by its configuration,
    [acme/repo2] has a detached configuration and recent analyses, the
    configuration request of [beta/repo3] throws. *)
Definition api : Api :=
  mkApi (fun _ => Ok stats) (fun _ => Ok repos)
        (fun owner repo =>
           if template repo =? "repo1" then attached "enabled" "disabled"
           else if owner =? "beta" then Throw
           else Ok (mkConfigResponse (Some (mkConfigData "detached" None))))
        (fun _ _ => settings 200 "disabled")
        (fun _ repo =>
           if template repo =? "repo2" then analyses 1 else analyses 0).

(** Every configuration request throws, while the settings and the analyses
    would report both tools in use. *)
Definition api_config_down : Api :=
  mkApi (fun _ => Ok stats) (fun _ => Ok [repo1])
        (fun _ _ => Throw)
        (fun _ _ => settings 200 "enabled")
        (fun _ _ => analyses 1).

(** The configuration is attached with secret scanning disabled and code
    scanning set as given; the settings request answers 404; analyses
    exist. *)
Definition api_settings_404 (code : string) : Api :=
  mkApi (fun _ => Ok stats) (fun _ => Ok [repo1])
        (fun _ _ => attached "disabled" code)
        (fun _ _ => settings 404 "enabled")
        (fun _ _ => analyses 1).

(** The configuration enables neither tool, the settings enable secret
    scanning, the analyses probe throws. *)
Definition api_probe_down : Api :=
  mkApi (fun _ => Ok stats) (fun _ => Ok [repo1])
        (fun _ _ => attached "disabled" "disabled")
        (fun _ _ => settings 200 "enabled")
        (fun _ _ => Throw).

(** Every configuration is attached with secret scanning enabled; no
    analyses exist. *)
Definition api_secret_everywhere : Api :=
  mkApi (fun _ => Ok stats) (fun _ => Ok repos)
        (fun _ _ => attached "enabled" "disabled")
        (fun _ _ => settings 200 "disabled")
        (fun _ _ => analyses 0).

(** The configuration enables neither tool and the settings request
    throws. *)
Definition api_settings_down : Api :=
  mkApi (fun _ => Ok stats) (fun _ => Ok [repo1; repo2])
        (fun _ _ => attached "disabled" "disabled")
        (fun _ _ => Throw)
        (fun _ _ => analyses 1).

Definition quiet : Argv := mkArgv (Some "ent") None false false.
Definition chatty : Argv := mkArgv (Some "ent") None true false.
Definition only_acme : Argv := mkArgv (Some "ent") (Some "acme") true false.

(** The state a run returns with; [init] when it does not return. *)
Definition final (o : Outcome) : State :=
  match o with
  | Returned st => st
  | _ => init
  end.

End Sample.

(** ** The throttling handlers (lines 11-29) *)

(** The request a handler is told about. *)
Record RequestOptions := mkRequestOptions {
  method : string;
  url : string
}.

(** [octokit.log]: the lines each of its methods prints. *)
Record Logger := mkLogger {
  log_warn : string -> list string;
  log_info : string -> list string;
  log_error : string -> list string
}.

(** Lines 56-57: [warn] and [error] are replaced by functions that do
    nothing. *)
Definition silence (l : Logger) : Logger :=
  mkLogger (fun _ => []) (log_info l) (fun _ => []).

(** Lines 12-22.  The result is the lines printed and the value returned;
    [None] is [undefined]. *)
Definition onRateLimit (retryAfter : Z) (options : RequestOptions)
  (octokit : Logger) (retryCount : Z) : list string * option bool :=
  let printed :=
    log_warn octokit
      ("Request quota exhausted for request "
         ++ method options ++ " " ++ url options)%string in
  if (retryCount <? 1)%Z then
    (printed
       ++ log_info octokit ("Retrying after " ++ show_Z retryAfter ++ " seconds!")%string,
     Some true)
  else (printed, None).

(** Lines 23-28. *)
Definition onSecondaryRateLimit (retryAfter : Z) (options : RequestOptions)
  (octokit : Logger) : list string * option bool :=
  (log_warn octokit
     ("SecondaryRateLimit detected for request "
        ++ method options ++ " " ++ url options)%string,
   None).

(** The request is sent again when the handler returns a truthy value. *)
Definition asks_retry (r : list string * option bool) : bool :=
  match snd r with
  | Some true => true
  | _ => false
  end.

(** ** More vocabulary: how an iteration ends, what a request is about *)

Section Endings.

Variable argv : Argv.
Variable api : Api.

(** The iteration of [r] ends [main] with an exception: the settings
    request of lines 153-156 throws, or line 164 reads a property of
    [undefined]. *)
Definition iteration_aborts (r : RepoBilling) : bool :=
  negb (owner_mismatch argv r)
  && match try_configuration api (owner_of (name r)) (repo_of (name r)) with
     | Ok (s, _) =>
         match secret_fallback api (name r) s with
         | Abort => true
         | _ => false
         end
     | Throw => false
     end.

(** The iteration of [r] ends at line 160. *)
Definition settings_rejected (r : RepoBilling) : bool :=
  negb (owner_mismatch argv r)
  && match try_configuration api (owner_of (name r)) (repo_of (name r)) with
     | Ok (s, _) =>
         match secret_fallback api (name r) s with
         | Skip => true
         | _ => false
         end
     | Throw => false
     end.

(** The program can read the response of the configuration request:
    [data] is there and, when the status is ["attached"], so is the
    configuration object. *)
Definition response_readable (resp : ConfigResponse) : bool :=
  match config_data resp with
  | None => false
  | Some data =>
      if (status data =? "attached")%string
      then match configuration data with
           | Some _ => true
           | None => false
           end
      else true
  end.

(** The configuration fetch of step 1 succeeds for [r]: the request is
    sent and it returns a response the program can read. *)
Definition configuration_fetch_succeeds (r : RepoBilling) : bool :=
  negb (owner_mismatch argv r)
  && match code_security_configuration api (owner_of (name r)) (repo_of (name r)) with
     | Ok resp => response_readable resp
     | Throw => false
     end.

(** The state in which the loop starts: lines 60-97 have printed the
    statistics and the number of repositories and sent the two billing
    requests. *)
Definition loop_start (stats : BillingStats) (n : nat) : State :=
  mkState
    [("Total active committers: "
        ++ show_Z (total_advanced_security_committers stats))%string;
     ("Max active committers: "
        ++ show_Z (maximum_advanced_security_committers stats))%string;
     ("Purchased committers: "
        ++ show_Z (purchased_advanced_security_committers stats))%string;
     ""%string;
     ("Number of repos: " ++ show_nat n)%string;
     ""%string]
    [ReqBillingStats (template (enterprise argv));
     ReqBillingRepos (template (enterprise argv))]
    [] [] 0.

End Endings.



Definition with_verbose (a : Argv) (v : bool) : Argv :=
  mkArgv (enterprise a) (org a) v (help a).

Definition with_org (a : Argv) (o : option string) : Argv :=
  mkArgv (enterprise a) o (verbose a) (help a).

(** Two states hold the same requests, sets and counter; their printed
    lines may differ. *)
Definition same_data (a b : State) : Prop :=
  requests a = requests b
  /\ secretProtectionCommitters a = secretProtectionCommitters b
  /\ codeScanningCommitters a = codeScanningCommitters b
  /\ successfullyProcessed a = successfullyProcessed b.

(** Two iterations, and two loops, end the same way with the same data. *)
Definition same_ctl (a b : Ctl) : Prop :=
  match a, b with
  | Normal x, Normal y => same_data x y
  | Continue x, Continue y => same_data x y
  | Uncaught x, Uncaught y => same_data x y
  | _, _ => False
  end.

Definition same_loop (a b : LoopResult) : Prop :=
  match a, b with
  | LoopDone x, LoopDone y => same_data x y
  | LoopUncaught x, LoopUncaught y => same_data x y
  | _, _ => False
  end.

(** Two runs end the same way with the same data. *)
Definition same_outcome (a b : Outcome) : Prop :=
  match a, b with
  | Exited c p, Exited c' p' => c = c' /\ p = p'
  | Rejected x, Rejected y => same_data x y
  | Returned x, Returned y => same_data x y
  | _, _ => False
  end.

(** * Properties *)

(** ** Sets *)

Lemma set_has_In (s : JsSet) (x : string) : set_has s x = true <-> In x s.
Proof.
  unfold set_has. rewrite existsb_exists. split.
  - intros [y [Hy E]]. apply String.eqb_eq in E. now subst.
  - intros H. exists x. split; [assumption | apply String.eqb_refl].
Qed.

Lemma set_add_In (s : JsSet) (x y : string) :
  In y (set_add s x) <-> In y s \/ y = x.
Proof.
  unfold set_add. destruct (set_has s x) eqn:E.
  - apply set_has_In in E. split; [tauto | intros [H | ->]; assumption].
  - rewrite in_app_iff. simpl. intuition.
Qed.

Lemma set_add_NoDup (s : JsSet) (x : string) : NoDup s -> NoDup (set_add s x).
Proof.
  intros H. unfold set_add. destruct (set_has s x) eqn:E; [assumption |].
  assert (~ In x s) as Hx.
  { intros Hin. apply set_has_In in Hin. congruence. }
  clear E. induction H as [| a l Ha Hl IH]; simpl.
  - constructor; [intros [] | constructor].
  - constructor.
    + rewrite in_app_iff. simpl. intros [H | [H | []]]; [tauto |].
      subst. apply Hx. now left.
    + apply IH. intros H. apply Hx. now right.
Qed.

Lemma add_committers_In (cs : list Committer) (s : JsSet) (y : string) :
  In y (add_committers s cs) <-> In y s \/ In y (map user_login cs).
Proof.
  unfold add_committers. revert s.
  induction cs as [| c cs IH]; intros s; simpl.
  - tauto.
  - rewrite IH, set_add_In. intuition.
Qed.

Lemma add_committers_NoDup (cs : list Committer) (s : JsSet) :
  NoDup s -> NoDup (add_committers s cs).
Proof.
  unfold add_committers. revert s.
  induction cs as [| c cs IH]; intros s H; simpl.
  - assumption.
  - apply IH. now apply set_add_NoDup.
Qed.

Lemma NoDup_count_occ_one (s : list string) (x : string) :
  NoDup s -> In x s -> count_occ string_dec s x = 1.
Proof.
  intros Hs Hx.
  pose proof (proj1 (NoDup_count_occ string_dec s) Hs x) as Hle.
  pose proof (proj1 (count_occ_In string_dec s x) Hx) as Hge.
  lia.
Qed.

(** ** Sorting *)

Lemma ascii_compare_refl (a : ascii) : Ascii.compare a a = Eq.
Proof. unfold Ascii.compare. apply N.compare_refl. Qed.

Lemma ascii_compare_lt_trans (a b c : ascii) :
  Ascii.compare a b = Lt -> Ascii.compare b c = Lt -> Ascii.compare a c = Lt.
Proof.
  unfold Ascii.compare. rewrite !N.compare_lt_iff. apply N.lt_trans.
Qed.

Lemma string_compare_lt_trans (a b c : string) :
  String.compare a b = Lt -> String.compare b c = Lt -> String.compare a c = Lt.
Proof.
  revert b c. induction a as [| x a IH]; intros [| y b] [| z c]; simpl;
    try congruence.
  destruct (Ascii.compare x y) eqn:Exy; try discriminate;
    destruct (Ascii.compare y z) eqn:Eyz; try discriminate; intros Hab Hbc.
  - apply Ascii.compare_eq_iff in Exy, Eyz. subst.
    rewrite ascii_compare_refl. now apply (IH b c).
  - apply Ascii.compare_eq_iff in Exy. subst. now rewrite Eyz.
  - apply Ascii.compare_eq_iff in Eyz. subst. now rewrite Exy.
  - now rewrite (ascii_compare_lt_trans x y z).
Qed.

Lemma lex_le_trans (a b c : string) : lex_le a b -> lex_le b c -> lex_le a c.
Proof.
  unfold lex_le, String.leb. intros Hab Hbc.
  destruct (String.compare a b) eqn:Eab; try discriminate;
    destruct (String.compare b c) eqn:Ebc; try discriminate.
  - apply String.compare_eq_iff in Eab. subst. now rewrite Ebc.
  - apply String.compare_eq_iff in Eab. subst. now rewrite Ebc.
  - apply String.compare_eq_iff in Ebc. subst. now rewrite Eab.
  - now rewrite (string_compare_lt_trans a b c).
Qed.

Lemma ltb_false_lex_le (x y : string) : (x <? y)%string = false -> lex_le y x.
Proof.
  unfold lex_le, String.ltb, String.leb. rewrite (String.compare_antisym y x).
  destruct (String.compare x y); simpl; congruence.
Qed.

Lemma ltb_true_lex_le (x y : string) : (x <? y)%string = true -> lex_le x y.
Proof.
  unfold lex_le, String.ltb, String.leb.
  destruct (String.compare x y); simpl; congruence.
Qed.

Lemma sort_insert_Permutation (x : string) (l : list string) :
  Permutation (x :: l) (sort_insert x l).
Proof.
  induction l as [| y l IH]; simpl.
  - reflexivity.
  - destruct (x <? y)%string.
    + reflexivity.
    + rewrite perm_swap. now apply perm_skip.
Qed.

Lemma sort_insert_sorted (x : string) (l : list string) :
  StronglySorted lex_le l -> StronglySorted lex_le (sort_insert x l).
Proof.
  induction l as [| y l IH]; simpl; intros H.
  - constructor; [constructor | constructor].
  - inversion H as [| ? ? Hl Hy]; subst.
    destruct (x <? y)%string eqn:E.
    + constructor; [assumption |].
      apply ltb_true_lex_le in E. constructor; [assumption |].
      eapply Forall_impl; [| exact Hy].
      intros z Hz. now apply (lex_le_trans x y z).
    + constructor; [now apply IH |].
      apply ltb_false_lex_le in E.
      apply (Permutation_Forall (sort_insert_Permutation x l)).
      now constructor.
Qed.

Lemma js_sort_from (l acc : list string) :
  StronglySorted lex_le acc ->
  StronglySorted lex_le (fold_left (fun a x => sort_insert x a) l acc)
  /\ Permutation (l ++ acc) (fold_left (fun a x => sort_insert x a) l acc).
Proof.
  revert acc. induction l as [| x l IH]; intros acc H; simpl.
  - split; [assumption | reflexivity].
  - destruct (IH (sort_insert x acc) (sort_insert_sorted x acc H)) as [S P].
    split; [assumption |].
    rewrite <- P. rewrite <- sort_insert_Permutation.
    apply Permutation_middle.
Qed.

Lemma js_sort_sorted (l : list string) : StronglySorted lex_le (js_sort l).
Proof. apply js_sort_from. constructor. Qed.

Lemma js_sort_Permutation (l : list string) : Permutation l (js_sort l).
Proof.
  unfold js_sort.
  destruct (js_sort_from l [] (SSorted_nil _)) as [_ P].
  now rewrite app_nil_r in P.
Qed.

(** ** Splitting a full name *)




(** ** One iteration and the loop *)

Section Properties.

Variable argv : Argv.
Variable api : Api.


(** Unfolds the loop body and the verdicts down to the three decisions. *)
Ltac open_body :=
  unfold loop_body, loop_body_with, mismatch_branch, single_skip,
    determined_enabled, verdict, secret_verdict, code_verdict,
    configuration_ok, owner_mismatch, committers_of, logins, ctl_state.

(** Splits on a decision once it is the head of a [match]. *)
Ltac split_decisions :=
  repeat match goal with
         | |- context [match ?d with Go _ => _ | Skip => _ | Abort => _ end] =>
             destruct d as [[|] | | ]
         | |- context [match ?d with Ok _ => _ | Throw => _ end] =>
             destruct d as [[[|] [|]] | ]
         | |- context [if verbose argv then _ else _] =>
             destruct (verbose argv)
         end.

(** What one iteration does to the sets and to the counter, however it
    ends. *)
Lemma loop_body_effect (st : State) (i : nat) (r : RepoBilling) :
  let st' := ctl_state (loop_body argv api st i r) in
  secretProtectionCommitters st' =
    (if determined_enabled argv api SecretScanning r
     then add_committers (secretProtectionCommitters st)
                         (advanced_security_committers_breakdown r)
     else secretProtectionCommitters st)
  /\ codeScanningCommitters st' =
    (if determined_enabled argv api CodeScanning r
     then add_committers (codeScanningCommitters st)
                         (advanced_security_committers_breakdown r)
     else codeScanningCommitters st)
  /\ successfullyProcessed st' =
    successfullyProcessed st + (if configuration_ok argv api r then 1 else 0).
Proof.
  open_body.
  destruct (truthy (org argv) && strict_neq (owner_of (name r)) (org argv)).
  - split_decisions; simpl; repeat split; lia.
  - simpl. split_decisions; simpl; repeat split; lia.
Qed.

Lemma run_loop_cons (st : State) (i : nat) (r : RepoBilling)
  (rs : list RepoBilling) (st' : State) :
  run_loop argv api st i (r :: rs) = LoopDone st' ->
  run_loop argv api (ctl_state (loop_body argv api st i r)) (S i) rs = LoopDone st'.
Proof.
  unfold run_loop. simpl. fold (loop_body argv api).
  destruct (loop_body argv api st i r); simpl; congruence.
Qed.

(** The counter after the loop. *)
Lemma run_loop_counter (rs : list RepoBilling) (st : State) (i : nat) (st' : State) :
  run_loop argv api st i rs = LoopDone st' ->
  successfullyProcessed st' =
    successfullyProcessed st + length (filter (configuration_ok argv api) rs).
Proof.
  revert st i. induction rs as [| r rs IH]; intros st i H.
  - unfold run_loop in H. simpl in H. injection H as <-. simpl. lia.
  - apply run_loop_cons in H. apply IH in H. rewrite H.
    destruct (loop_body_effect st i r) as (_ & _ & ->).
    simpl. destruct (configuration_ok argv api r); simpl; lia.
Qed.

(** The sets after the loop: no duplicate appears, and the members are the
    old ones and the logins of the repositories where the tool is
    determined enabled. *)
Lemma run_loop_sets (t : Tool) (rs : list RepoBilling) (st : State) (i : nat)
  (st' : State) :
  run_loop argv api st i rs = LoopDone st' ->
  NoDup (committers_of t st) ->
  NoDup (committers_of t st')
  /\ forall login,
      In login (committers_of t st') <->
      In login (committers_of t st)
      \/ exists r, In r rs /\ determined_enabled argv api t r = true
                   /\ In login (logins r).
Proof.
  revert st i. induction rs as [| r rs IH]; intros st i H ND.
  - unfold run_loop in H. simpl in H. injection H as <-.
    split; [assumption |]. intros login. split; [auto |].
    intros [Hin | (r & [] & _)]. assumption.
  - apply run_loop_cons in H.
    destruct (loop_body_effect st i r) as (Es & Ec & _).
    assert (committers_of t (ctl_state (loop_body argv api st i r)) =
            if determined_enabled argv api t r
            then add_committers (committers_of t st)
                                (advanced_security_committers_breakdown r)
            else committers_of t st) as E.
    { destruct t; simpl; assumption. }
    clear Es Ec.
    destruct (IH _ _ H) as [ND' M].
    { rewrite E. destruct (determined_enabled argv api t r);
        [now apply add_committers_NoDup | assumption]. }
    split; [assumption |].
    intros login. rewrite M, E. clear M IH H.
    destruct (determined_enabled argv api t r) eqn:D.
    + rewrite add_committers_In. fold (logins r). split.
      * intros [[Hin | Hin] | (r' & Hr' & D' & Hin)].
        -- now left.
        -- right. exists r. simpl. auto.
        -- right. exists r'. simpl. auto.
      * intros [Hin | (r' & [<- | Hr'] & D' & Hin)].
        -- left. now left.
        -- left. now right.
        -- right. exists r'. auto.
    + split.
      * intros [Hin | (r' & Hr' & D' & Hin)].
        -- now left.
        -- right. exists r'. simpl. auto.
      * intros [Hin | (r' & [<- | Hr'] & D' & Hin)].
        -- now left.
        -- congruence.
        -- right. exists r'. auto.
Qed.

(** *** The report *)

Lemma fold_left_log (f : string -> string) (l : list string) (st : State) :
  fold_left (fun st c => log st (f c)) l st =
  mkState (out st ++ map f l) (requests st) (secretProtectionCommitters st)
          (codeScanningCommitters st) (successfullyProcessed st).
Proof.
  revert st. induction l as [| x l IH]; intros st; simpl.
  - rewrite app_nil_r. now destruct st.
  - rewrite IH. unfold log. simpl. now rewrite <- app_assoc.
Qed.

Lemma report_out (st : State) (n : nat) :
  out (report argv st n) =
  out st
  ++ [""%string;
      ("Successfully processed repositories: "
         ++ show_nat (successfullyProcessed st) ++ " out of " ++ show_nat n)%string;
      ("Secret protection: "
         ++ show_nat (length (secretProtectionCommitters st)))%string;
      ("Code security: " ++ show_nat (length (codeScanningCommitters st)))%string]
  ++ (if verbose argv
      then ["Secret protection committers:"%string]
           ++ map (append " - ") (js_sort (secretProtectionCommitters st))
           ++ ["Code scanning committers:"%string]
           ++ map (append " - ") (js_sort (codeScanningCommitters st))
      else []).
Proof.
  unfold report. destruct (verbose argv).
  - rewrite !(fold_left_log (append " - ")). simpl.
    rewrite <- !app_assoc. simpl. reflexivity.
  - simpl. rewrite <- !app_assoc. simpl. reflexivity.
Qed.

Lemma report_fields (st : State) (n : nat) :
  secretProtectionCommitters (report argv st n) = secretProtectionCommitters st
  /\ codeScanningCommitters (report argv st n) = codeScanningCommitters st
  /\ successfullyProcessed (report argv st n) = successfullyProcessed st
  /\ requests (report argv st n) = requests st.
Proof.
  unfold report. destruct (verbose argv).
  - rewrite !(fold_left_log (append " - ")). simpl. auto.
  - simpl. auto.
Qed.

Lemma loop_body_out (st : State) (i : nat) (r : RepoBilling) :
  exists printed, out (ctl_state (loop_body argv api st i r)) = out st ++ printed.
Proof.
  open_body.
  destruct (truthy (org argv) && strict_neq (owner_of (name r)) (org argv)).
  - split_decisions; simpl; eexists; try reflexivity;
      symmetry; apply app_nil_r.
  - simpl. split_decisions; simpl; rewrite <- ?app_assoc; eexists;
      try reflexivity; symmetry; apply app_nil_r.
Qed.

Lemma run_loop_out (rs : list RepoBilling) (st : State) (i : nat) (st' : State) :
  run_loop argv api st i rs = LoopDone st' ->
  exists printed, out st' = out st ++ printed.
Proof.
  revert st i. induction rs as [| r rs IH]; intros st i H.
  - unfold run_loop in H. simpl in H. injection H as <-.
    exists []. symmetry. apply app_nil_r.
  - apply run_loop_cons in H. apply IH in H. destruct H as [p2 E2].
    destruct (loop_body_out st i r) as [p1 E1].
    exists (p1 ++ p2). rewrite E2, E1. now rewrite app_assoc.
Qed.

(** A run that returns has listed the repositories, run the loop to its
    end from empty sets and printed the report. *)
Lemma main_returned (st : State) (repos : list RepoBilling) :
  main argv api = Returned st ->
  billing_repos api (template (enterprise argv)) = Ok repos ->
  exists st0 stL,
    secretProtectionCommitters st0 = []
    /\ codeScanningCommitters st0 = []
    /\ successfullyProcessed st0 = 0
    /\ length (out st0) = 6
    /\ nth_error (out st0) 4 =
         Some ("Number of repos: "
                 ++ show_nat (length (filteredRepos argv repos)))%string
    /\ run_loop argv api st0 0 (filteredRepos argv repos) = LoopDone stL
    /\ st = report argv stL (length (filteredRepos argv repos)).
Proof.
  unfold main, main_with. intros H R.
  destruct (help argv || negb (truthy (enterprise argv))); [discriminate |].
  destruct (billing_stats api (template (enterprise argv))) as [stats |];
    [| discriminate].
  rewrite R in H.
  fold (loop_body argv api) in H. fold (run_loop argv api) in H.
  match type of H with
  | match run_loop argv api ?s 0 _ with _ => _ end = _ =>
      destruct (run_loop argv api s 0 (filteredRepos argv repos)) as [stL |] eqn:L;
        [exists s, stL | discriminate]
  end.
  injection H as <-. simpl. repeat split; auto.
Qed.

Lemma qualifying_exists (t : Tool) (login : string) (rs : list RepoBilling) :
  1 <= length (qualifying argv api t login rs) ->
  exists r, In r rs /\ determined_enabled argv api t r = true
            /\ In login (logins r).
Proof.
  unfold qualifying. intros H.
  destruct (filter _ rs) as [| r l] eqn:E; [simpl in H; lia |].
  assert (In r (r :: l)) as Hin by now left.
  rewrite <- E in Hin. apply filter_In in Hin. destruct Hin as [Hr Hb].
  apply andb_true_iff in Hb. destruct Hb as [D Hl].
  exists r. repeat split; try assumption.
  apply existsb_exists in Hl. destruct Hl as (y & Hy & Ey).
  apply String.eqb_eq in Ey. now subst.
Qed.

(** The final sets of a run that returns. *)
Lemma returned_sets (t : Tool) (st : State) (repos : list RepoBilling) :
  main argv api = Returned st ->
  billing_repos api (template (enterprise argv)) = Ok repos ->
  NoDup (committers_of t st)
  /\ forall login,
      In login (committers_of t st) <->
      exists r, In r (filteredRepos argv repos)
                /\ determined_enabled argv api t r = true
                /\ In login (logins r).
Proof.
  intros H R.
  destruct (main_returned st repos H R)
    as (st0 & stL & S0 & C0 & _ & _ & _ & L & ->).
  destruct (report_fields stL (length (filteredRepos argv repos)))
    as (Es & Ec & _ & _).
  assert (committers_of t (report argv stL (length (filteredRepos argv repos)))
          = committers_of t stL) as E
    by (destruct t; simpl; assumption).
  assert (committers_of t st0 = []) as E0 by (destruct t; simpl; assumption).
  destruct (run_loop_sets t _ _ _ _ L) as [ND M].
  { rewrite E0. constructor. }
  rewrite E. split; [assumption |].
  intros login. rewrite M, E0. simpl. tauto.
Qed.

(** ** The claims *)

(** C6.  When the configuration request succeeds and the status is
    ["attached"], the flag for secret scanning, false before, is true
    exactly when [configuration.secret_scanning] is ["enabled"], and the
    flag for code scanning is true exactly when
    [configuration.code_scanning_default_setup] is ["enabled"]. *)
Theorem attached_configuration_sets_flags
  (owner : string) (repo : option string) (resp : ConfigResponse)
  (data : ConfigData) (conf : Configuration) :
  code_security_configuration api owner repo = Ok resp ->
  config_data resp = Some data ->
  status data = "attached"%string ->
  configuration data = Some conf ->
  exists secretScanningEnabled codeScanningEnabled,
    try_configuration api owner repo
      = Ok (secretScanningEnabled, codeScanningEnabled)
    /\ (secretScanningEnabled = true
        <-> secret_scanning conf = "enabled"%string)
    /\ (codeScanningEnabled = true
        <-> code_scanning_default_setup conf = "enabled"%string).
Proof.
  intros Hreq Hdata Hstatus Hconf.
  unfold try_configuration. rewrite Hreq, Hdata, Hstatus, Hconf. simpl.
  eexists. eexists. split; [reflexivity |].
  split.
  - destruct (String.eqb_spec (secret_scanning conf) "enabled");
      split; congruence.
  - destruct (String.eqb_spec (code_scanning_default_setup conf) "enabled");
      split; congruence.
Qed.

(** C3.  In a run that returns, a login that appears in the breakdown of
    N >= 1 considered repositories where the tool (secret scanning or code
    scanning) is determined enabled occurs exactly once in the final set of
    that tool; the set holds no login twice and the report prints its
    size. *)
Theorem login_counted_once
  (t : Tool) (st : State) (repos : list RepoBilling) (login : string) :
  main argv api = Returned st ->
  billing_repos api (template (enterprise argv)) = Ok repos ->
  1 <= length (qualifying argv api t login (filteredRepos argv repos)) ->
  count_occ string_dec (committers_of t st) login = 1
  /\ NoDup (committers_of t st)
  /\ In (count_line t st) (out st).
Proof.
  intros H R N.
  destruct (returned_sets t st repos H R) as [ND M].
  split; [| split].
  - apply NoDup_count_occ_one; [assumption |].
    apply M. now apply qualifying_exists.
  - assumption.
  - destruct (main_returned st repos H R)
      as (st0 & stL & _ & _ & _ & _ & _ & _ & ->).
    destruct (report_fields stL (length (filteredRepos argv repos)))
      as (Es & Ec & _ & _).
    rewrite report_out. unfold count_line. rewrite Es, Ec.
    apply in_or_app. right. apply in_or_app. left.
    destruct t; simpl; auto.
Qed.

(** C10.  In a run that returns, every login of the final secret-scanning
    set (respectively code-scanning set) appears in the breakdown of a
    considered repository for which that tool was determined enabled in the
    loop. *)
Theorem final_sets_sound
  (t : Tool) (st : State) (repos : list RepoBilling) (login : string) :
  main argv api = Returned st ->
  billing_repos api (template (enterprise argv)) = Ok repos ->
  In login (committers_of t st) ->
  exists r,
    In r (filteredRepos argv repos)
    /\ determined_enabled argv api t r = true
    /\ In login (logins r).
Proof.
  intros H R Hin.
  destruct (returned_sets t st repos H R) as [_ M].
  now apply M.
Qed.

Lemma filter_idempotent {A : Type} (f : A -> bool) (l : list A) :
  filter f (filter f l) = filter f l.
Proof.
  induction l as [| x l IH]; simpl; [reflexivity |].
  destruct (f x) eqn:E; simpl; rewrite ?E, IH; reflexivity.
Qed.

Lemma filteredRepos_idempotent (repos : list RepoBilling) :
  filteredRepos argv (filteredRepos argv repos) = filteredRepos argv repos.
Proof.
  unfold filteredRepos. destruct (truthy (org argv)); [| reflexivity].
  apply filter_idempotent.
Qed.

(** C4.  With an org filter [o], the repositories considered are exactly
    those of the listing whose full name starts with [o ++ "/"]; the report
    gives their number; every login of either final set comes from the
    breakdown of such a repository; and the whole run is the one the
    program makes when the other repositories are not listed at all. *)
Theorem org_filter_keeps_only_prefixed
  (o : string) (st : State) (repos : list RepoBilling) :
  org argv = Some o ->
  o <> ""%string ->
  main argv api = Returned st ->
  billing_repos api (template (enterprise argv)) = Ok repos ->
  let kept := filter (fun r => prefix (o ++ "/") (name r)) repos in
  filteredRepos argv repos = kept
  /\ Forall (fun r => prefix (o ++ "/") (name r) = true) (filteredRepos argv repos)
  /\ nth_error (out st) 4 =
       Some ("Number of repos: " ++ show_nat (length kept))%string
  /\ (forall t login,
         In login (committers_of t st) ->
         exists r, In r repos /\ prefix (o ++ "/") (name r) = true
                   /\ In login (logins r))
  /\ main argv (with_repos api kept) = main argv api.
Proof.
  intros Ho Hne H R kept.
  assert (filteredRepos argv repos = kept) as F.
  { unfold filteredRepos, kept. rewrite Ho. simpl.
    destruct (String.eqb_spec o ""); [contradiction | reflexivity]. }
  split; [exact F |]. split; [| split; [| split]].
  - rewrite F. apply Forall_forall. intros r Hr.
    apply filter_In in Hr. tauto.
  - destruct (main_returned st repos H R)
      as (st0 & stL & _ & _ & _ & Len & Nth & L & ->).
    rewrite report_out.
    destruct (run_loop_out _ _ _ _ L) as [printed ->].
    rewrite <- !app_assoc. rewrite nth_error_app1 by lia.
    now rewrite Nth, F.
  - intros t login Hin.
    destruct (returned_sets t st repos H R) as [_ M].
    apply M in Hin. destruct Hin as (r & Hr & _ & Hl).
    rewrite F in Hr. apply filter_In in Hr. exists r. tauto.
  - assert (filteredRepos argv kept = kept) as K
      by (rewrite <- F; apply filteredRepos_idempotent).
    unfold main, main_with.
    change (loop_body argv (with_repos api kept)) with (loop_body argv api).
    change (billing_stats (with_repos api kept)) with (billing_stats api).
    change (billing_repos (with_repos api kept) (template (enterprise argv)))
      with (Ok kept).
    rewrite R, F, K. reflexivity.
Qed.

(** C8.  In verbose mode a run that returns ends its output with the two
    committer lists; each is in lexicographic order, names no login twice
    and lists exactly the members of its set. *)
Theorem verbose_lists_sorted_unique (st : State) :
  main argv api = Returned st ->
  verbose argv = true ->
  exists before secret code,
    out st =
      before
      ++ ["Secret protection committers:"%string] ++ map (append " - ") secret
      ++ ["Code scanning committers:"%string] ++ map (append " - ") code
    /\ StronglySorted lex_le secret /\ NoDup secret
    /\ Permutation (secretProtectionCommitters st) secret
    /\ StronglySorted lex_le code /\ NoDup code
    /\ Permutation (codeScanningCommitters st) code.
Proof.
  intros H V.
  assert (exists repos, billing_repos api (template (enterprise argv)) = Ok repos)
    as [repos R].
  { unfold main, main_with in H.
    destruct (help argv || negb (truthy (enterprise argv))); [discriminate |].
    destruct (billing_stats api _); [| discriminate].
    destruct (billing_repos api _) as [repos |]; [| discriminate].
    now exists repos. }
  destruct (returned_sets SecretScanning st repos H R) as [NDs _].
  destruct (returned_sets CodeScanning st repos H R) as [NDc _].
  simpl in NDs, NDc.
  destruct (main_returned st repos H R)
    as (st0 & stL & _ & _ & _ & _ & _ & _ & E).
  set (n := length (filteredRepos argv repos)) in E.
  destruct (report_fields stL n) as (Es & Ec & _ & _).
  rewrite <- E in Es, Ec.
  pose proof (report_out stL n) as O. rewrite <- E, V in O.
  rewrite <- Es, <- Ec in O.
  eexists. exists (js_sort (secretProtectionCommitters st)).
  exists (js_sort (codeScanningCommitters st)).
  split.
  - rewrite O. rewrite app_assoc. reflexivity.
  - repeat split.
    + apply js_sort_sorted.
    + apply (Permutation_NoDup (js_sort_Permutation _) NDs).
    + apply js_sort_Permutation.
    + apply js_sort_sorted.
    + apply (Permutation_NoDup (js_sort_Permutation _) NDc).
    + apply js_sort_Permutation.
Qed.

Lemma loop_body_single_skip (st : State) (i : nat) (r : RepoBilling) :
  loop_body_with argv api single_skip st i r = loop_body argv api st i r.
Proof.
  unfold loop_body, loop_body_with, mismatch_branch, single_skip.
  destruct (truthy (org argv) && strict_neq (owner_of (name r)) (org argv));
    [| reflexivity].
  destruct (verbose argv); reflexivity.
Qed.

Lemma run_loop_with_ext (body1 body2 : State -> nat -> RepoBilling -> Ctl) :
  (forall st i r, body1 st i r = body2 st i r) ->
  forall rs st i, run_loop_with body1 st i rs = run_loop_with body2 st i rs.
Proof.
  intros E rs. induction rs as [| r rs IH]; intros st i; simpl.
  - reflexivity.
  - rewrite E. destruct (body2 st i r); auto.
Qed.

(** C9.  The program with lines 110-113 as written
    ([if (argv.verbose) continue; continue;]) and the program with a single
    unconditional skip in their place end the same way on every input, with
    the same output, requests, sets and counter. *)
Theorem duplicate_continue_is_single_skip :
  main_single_skip argv api = main argv api.
Proof.
  unfold main_single_skip, main, main_with.
  destruct (help argv || negb (truthy (enterprise argv))); [reflexivity |].
  destruct (billing_stats api _); [| reflexivity].
  destruct (billing_repos api _); [| reflexivity].
  now rewrite (run_loop_with_ext _ _ loop_body_single_skip).
Qed.

(** C1, as the program has it.  When the configuration step of a
    repository fails, the iteration ends there with [continue]: the counter
    is not incremented, the configuration request is the only request sent
    for the repository (neither the direct settings nor the analyses are
    asked for), both sets stay as they are, the error line is printed in
    verbose mode only, and the loop goes on with the next repository. *)
Theorem config_failure_ends_iteration
  (st : State) (i : nat) (r : RepoBilling) (rs : list RepoBilling) :
  owner_mismatch argv r = false ->
  try_configuration api (owner_of (name r)) (repo_of (name r)) = Throw ->
  exists st',
    loop_body argv api st i r = Continue st'
    /\ successfullyProcessed st' = successfullyProcessed st
    /\ requests st' =
         requests st ++ [ReqConfiguration (owner_of (name r)) (repo_of (name r))]
    /\ secretProtectionCommitters st' = secretProtectionCommitters st
    /\ codeScanningCommitters st' = codeScanningCommitters st
    /\ out st' =
         out st
         ++ (if verbose argv
             then [("Repo " ++ show_nat (i + 1) ++ ": " ++ name r)%string;
                   ("Error fetching code security configuration for "
                      ++ name r)%string]
             else [])
    /\ run_loop argv api st i (r :: rs) = run_loop argv api st' (S i) rs.
Proof.
  intros M T. unfold owner_mismatch in M.
  unfold run_loop. simpl. fold (loop_body argv api).
  unfold loop_body, loop_body_with. rewrite M, T.
  eexists. split; [reflexivity |].
  destruct (verbose argv); simpl; rewrite <- ?app_assoc, ?app_nil_r;
    repeat split; reflexivity.
Qed.

(** Lines 158-161.  When the direct-settings request returns a response
    whose status is not 200, the error line is printed whether or not
    verbose mode is on, the iteration ends there with [continue] (the
    counter keeps the increment of the configuration step, both sets stay
    as they are, no analyses are asked for), and the loop goes on with the
    next repository. *)
Lemma settings_non_200_ends_iteration
  (st : State) (i : nat) (r : RepoBilling) (rs : list RepoBilling)
  (c : bool) (resp : RepoSettings) :
  owner_mismatch argv r = false ->
  try_configuration api (owner_of (name r)) (repo_of (name r)) = Ok (false, c) ->
  repos_get api (owner_of (name r)) (repo_of (name r)) = Ok resp ->
  http_status resp <> 200%Z ->
  exists st',
    loop_body argv api st i r = Continue st'
    /\ out st' =
         out st
         ++ (if verbose argv
             then [("Repo " ++ show_nat (i + 1) ++ ": " ++ name r)%string]
             else [])
         ++ [("Error fetching repo settings for " ++ name r)%string]
    /\ successfullyProcessed st' = successfullyProcessed st + 1
    /\ requests st' =
         requests st
         ++ [ReqConfiguration (owner_of (name r)) (repo_of (name r));
             ReqRepoSettings (owner_of (name r)) (repo_of (name r))]
    /\ secretProtectionCommitters st' = secretProtectionCommitters st
    /\ codeScanningCommitters st' = codeScanningCommitters st
    /\ run_loop argv api st i (r :: rs) = run_loop argv api st' (S i) rs.
Proof.
  intros M T G S. unfold owner_mismatch in M.
  assert (secret_fallback api (name r) false = Skip) as F.
  { unfold secret_fallback. simpl. rewrite G.
    destruct (Z.eqb_spec (http_status resp) 200); [contradiction | reflexivity]. }
  unfold run_loop. simpl. fold (loop_body argv api).
  unfold loop_body, loop_body_with. rewrite M, T. simpl. rewrite F.
  eexists. split; [reflexivity |].
  destruct (verbose argv); simpl; rewrite <- ?app_assoc;
    repeat split; reflexivity.
Qed.

(** C7, as the program has it.  When the iteration of a repository reaches
    the code-scanning step (the configuration step succeeded and the
    secret-scanning step did not end the iteration) with
    [codeScanningEnabled] still false, the analyses probe is sent.  If it
    returns, the flag is true exactly when at least one analysis is
    present, and then the committers join the code-scanning set.  If it
    throws, the tool counts as not enabled: the iteration ends with
    [continue], nothing is printed for it and the code-scanning set stays
    as it is.  Either way the counter keeps the increment of the
    configuration step. *)
Theorem probe_runs_when_code_step_reached
  (st : State) (i : nat) (r : RepoBilling) (s s' : bool) :
  owner_mismatch argv r = false ->
  try_configuration api (owner_of (name r)) (repo_of (name r)) = Ok (s, false) ->
  secret_fallback api (name r) s = Go s' ->
  let st' := ctl_state (loop_body argv api st i r) in
  (exists sent,
      requests st' =
      requests st ++ sent ++ [ReqAnalyses (owner_of (name r)) (repo_of (name r))])
  /\ successfullyProcessed st' = successfullyProcessed st + 1
  /\ out st' =
       out st
       ++ (if verbose argv
           then [("Repo " ++ show_nat (i + 1) ++ ": " ++ name r)%string]
           else [])
  /\ match listRecentAnalyses api (owner_of (name r)) (repo_of (name r)) with
     | Throw =>
         loop_body argv api st i r = Continue st'
         /\ codeScanningCommitters st' = codeScanningCommitters st
     | Ok analyses =>
         loop_body argv api st i r = Normal st'
         /\ codeScanningCommitters st' =
              if has_analysis analyses
              then add_committers (codeScanningCommitters st)
                                  (advanced_security_committers_breakdown r)
              else codeScanningCommitters st
     end.
Proof.
  intros M T F. unfold owner_mismatch in M.
  unfold loop_body, loop_body_with. rewrite M, T, F.
  unfold code_probe, has_analysis. simpl.
  split.
  - exists (ReqConfiguration (owner_of (name r)) (repo_of (name r))
            :: if s then []
               else [ReqRepoSettings (owner_of (name r)) (repo_of (name r))]).
    destruct (listRecentAnalyses api _ _) as [[[[| a l] |]] |];
      destruct (verbose argv), s, s'; simpl;
      rewrite <- ?app_assoc; reflexivity.
  - destruct (listRecentAnalyses api _ _) as [[[[| a l] |]] |];
      destruct (verbose argv), s, s'; simpl;
      rewrite <- ?app_assoc, ?app_nil_r; repeat split; reflexivity.
Qed.

End Properties.

(** ** The claims on sample runs *)

(** The scenario of the specification, with a third repository whose
    configuration request throws. *)
Example sample_run :
  main Sample.chatty Sample.api =
  Returned
    (mkState
       ["Total active committers: 50"%string; "Max active committers: 60"%string;
        "Purchased committers: 70"%string; ""%string;
        "Number of repos: 3"%string; ""%string;
        "Repo 1: acme/repo1"%string; "Repo 2: acme/repo2"%string;
        "Repo 3: beta/repo3"%string;
        "Error fetching code security configuration for beta/repo3"%string;
        ""%string; "Successfully processed repositories: 2 out of 3"%string;
        "Secret protection: 2"%string; "Code security: 2"%string;
        "Secret protection committers:"%string; " - alice"%string;
        " - bob"%string; "Code scanning committers:"%string; " - bob"%string;
        " - carol"%string]
       [ReqBillingStats "ent"; ReqBillingRepos "ent";
        ReqConfiguration "acme" (Some "repo1"%string);
        ReqAnalyses "acme" (Some "repo1"%string);
        ReqConfiguration "acme" (Some "repo2"%string);
        ReqRepoSettings "acme" (Some "repo2"%string);
        ReqAnalyses "acme" (Some "repo2"%string);
        ReqConfiguration "beta" (Some "repo3"%string)]
       ["alice"%string; "bob"%string] ["bob"%string; "carol"%string] 2).
Proof. vm_compute. reflexivity. Qed.

(** A run in which the configuration request throws: nothing else is asked
    about the repository and both sets stay empty, although the settings
    and the analyses would report both tools in use. *)
Example config_down_run :
  main Sample.quiet Sample.api_config_down =
  Returned
    (mkState
       ["Total active committers: 50"%string; "Max active committers: 60"%string;
        "Purchased committers: 70"%string; ""%string;
        "Number of repos: 1"%string; ""%string; ""%string;
        "Successfully processed repositories: 0 out of 1"%string;
        "Secret protection: 0"%string; "Code security: 0"%string]
       [ReqBillingStats "ent"; ReqBillingRepos "ent";
        ReqConfiguration "acme" (Some "repo1"%string)]
       [] [] 0).
Proof. vm_compute. reflexivity. Qed.

(** A repository whose configuration enables code scanning but whose
    settings request answers 404 never reaches line 191: code scanning is
    not determined enabled for it. *)
Example code_flag_unused_after_settings_404 :
  try_configuration (Sample.api_settings_404 "enabled") "acme" (Some "repo1"%string)
    = Ok (false, true)
  /\ determined_enabled Sample.quiet (Sample.api_settings_404 "enabled")
       CodeScanning Sample.repo1 = false.
Proof. split; reflexivity. Qed.

(** C1 fails as stated: after the failed configuration request no settings
    request and no analyses probe is sent. *)
Lemma config_failure_sends_no_fallback :
  ~ fallbacks_run_after_config_failure
      Sample.quiet Sample.api_config_down init 0 Sample.repo1.
Proof.
  intros H. specialize (H eq_refl eq_refl).
  destruct H as (_ & sent & E & Hs & _).
  vm_compute in E. subst sent.
  destruct Hs as [Hs | []]. discriminate Hs.
Qed.

(** C7 fails as stated: the flag is false after the configuration step,
    yet the settings request answers 404 and no probe is sent. *)
Lemma probe_skipped_after_settings_404 :
  ~ probe_runs_whenever_code_flag_false
      Sample.quiet (Sample.api_settings_404 "disabled") init 0 Sample.repo1.
Proof.
  intros H. destruct (H false eq_refl eq_refl) as (sent & E & Hin).
  vm_compute in E. subst sent.
  destruct Hin as [Hin | [Hin | []]]; discriminate Hin.
Qed.

(** ** The theorems at concrete inputs *)

Lemma attached_configuration_sets_flags_witness :
  code_security_configuration Sample.api "acme" (Some "repo1"%string)
    = Sample.attached "enabled" "disabled"
  /\ exists s c,
      try_configuration Sample.api "acme" (Some "repo1"%string) = Ok (s, c)
      /\ (s = true <-> "enabled"%string = "enabled"%string)
      /\ (c = true <-> "disabled"%string = "enabled"%string).
Proof.
  split; [vm_compute; reflexivity |].
  apply (attached_configuration_sets_flags Sample.api "acme" (Some "repo1"%string)
           (mkConfigResponse
              (Some (mkConfigData "attached"
                       (Some (mkConfiguration "enabled" "disabled")))))
           (mkConfigData "attached" (Some (mkConfiguration "enabled" "disabled")))
           (mkConfiguration "enabled" "disabled"));
    reflexivity.
Defined.

Lemma login_counted_once_witness :
  length (qualifying Sample.chatty Sample.api_secret_everywhere SecretScanning
            "alice" (filteredRepos Sample.chatty Sample.repos)) = 2
  /\ count_occ string_dec
       (committers_of SecretScanning
          (Sample.final (main Sample.chatty Sample.api_secret_everywhere)))
       "alice" = 1.
Proof.
  split; [vm_compute; reflexivity |].
  refine (proj1 (login_counted_once Sample.chatty Sample.api_secret_everywhere
                   SecretScanning
                   (Sample.final (main Sample.chatty Sample.api_secret_everywhere))
                   Sample.repos "alice" _ _ _)).
  - vm_compute. reflexivity.
  - vm_compute. reflexivity.
  - vm_compute. lia.
Defined.

Lemma final_sets_sound_witness :
  In "carol"%string
     (codeScanningCommitters (Sample.final (main Sample.chatty Sample.api)))
  /\ exists r,
      In r (filteredRepos Sample.chatty Sample.repos)
      /\ determined_enabled Sample.chatty Sample.api CodeScanning r = true
      /\ In "carol"%string (logins r).
Proof.
  split; [vm_compute; auto |].
  refine (final_sets_sound Sample.chatty Sample.api CodeScanning
           (Sample.final (main Sample.chatty Sample.api)) Sample.repos "carol"
           _ _ _).
  - vm_compute. reflexivity.
  - vm_compute. reflexivity.
  - vm_compute. auto.
Defined.

Lemma org_filter_keeps_only_prefixed_witness :
  org Sample.only_acme = Some "acme"%string
  /\ filteredRepos Sample.only_acme Sample.repos = [Sample.repo1; Sample.repo2]
  /\ nth_error (out (Sample.final (main Sample.only_acme Sample.api))) 4
     = Some "Number of repos: 2"%string
  /\ main Sample.only_acme
          (with_repos Sample.api [Sample.repo1; Sample.repo2])
     = main Sample.only_acme Sample.api.
Proof.
  split; [vm_compute; reflexivity |].
  destruct (org_filter_keeps_only_prefixed Sample.only_acme Sample.api "acme"
              (Sample.final (main Sample.only_acme Sample.api)) Sample.repos)
    as (F & _ & N & _ & I).
  - vm_compute. reflexivity.
  - discriminate.
  - vm_compute. reflexivity.
  - vm_compute. reflexivity.
  - split; [exact F |]. split; [exact N | exact I].
Defined.

Lemma verbose_lists_sorted_unique_witness :
  verbose Sample.chatty = true
  /\ exists before secret code,
      out (Sample.final (main Sample.chatty Sample.api)) =
        before
        ++ ["Secret protection committers:"%string] ++ map (append " - ") secret
        ++ ["Code scanning committers:"%string] ++ map (append " - ") code
      /\ StronglySorted lex_le secret /\ NoDup secret
      /\ Permutation
           (secretProtectionCommitters (Sample.final (main Sample.chatty Sample.api)))
           secret
      /\ StronglySorted lex_le code /\ NoDup code
      /\ Permutation
           (codeScanningCommitters (Sample.final (main Sample.chatty Sample.api)))
           code.
Proof.
  split; [vm_compute; reflexivity |].
  apply (verbose_lists_sorted_unique Sample.chatty Sample.api).
  - vm_compute. reflexivity.
  - vm_compute. reflexivity.
Defined.

Lemma config_failure_ends_iteration_witness :
  try_configuration Sample.api_config_down "acme" (Some "repo1"%string) = Throw
  /\ exists st',
      loop_body Sample.quiet Sample.api_config_down init 0 Sample.repo1
        = Continue st'
      /\ successfullyProcessed st' = 0
      /\ requests st' = [ReqConfiguration "acme" (Some "repo1"%string)]
      /\ secretProtectionCommitters st' = []
      /\ codeScanningCommitters st' = [].
Proof.
  split; [vm_compute; reflexivity |].
  destruct (config_failure_ends_iteration Sample.quiet Sample.api_config_down
              init 0 Sample.repo1 [] eq_refl eq_refl)
    as (st' & B & C & Rq & S & K & _).
  exists st'. repeat split; assumption.
Defined.

Lemma probe_runs_when_code_step_reached_witness :
  secret_fallback Sample.api_probe_down "acme/repo1" false = Go true
  /\ loop_body Sample.quiet Sample.api_probe_down init 0 Sample.repo1
     = Continue (ctl_state (loop_body Sample.quiet Sample.api_probe_down init 0
                                      Sample.repo1))
  /\ codeScanningCommitters
       (ctl_state (loop_body Sample.quiet Sample.api_probe_down init 0
                             Sample.repo1)) = []
  /\ successfullyProcessed
       (ctl_state (loop_body Sample.quiet Sample.api_probe_down init 0
                             Sample.repo1)) = 1.
Proof.
  split; [vm_compute; reflexivity |].
  destruct (probe_runs_when_code_step_reached Sample.quiet Sample.api_probe_down
              init 0 Sample.repo1 false true eq_refl eq_refl eq_refl)
    as (_ & C & _ & B & K).
  repeat split; assumption.
Defined.

(** * Further properties of the program *)

Section Runs.

Variable argv : Argv.
Variable api : Api.

Ltac open_iteration :=
  unfold loop_body, loop_body_with, mismatch_branch, iteration_aborts,
    settings_rejected, owner_mismatch.

(** ** How a run ends *)

(** X1.  The process exits exactly when help is asked for or no enterprise is
    given (absent or empty); it then exits with status 1 after printing the
    two usage lines, before any request. *)
Theorem exit_iff_help_or_no_enterprise (code : Z) (printed : list string) :
  main argv api = Exited code printed <->
  (help argv = true \/ truthy (enterprise argv) = false)
  /\ code = 1%Z /\ printed = usage.
Proof.
  unfold main, main_with.
  destruct (help argv); simpl.
  - split.
    + intros H. injection H as <- <-. auto.
    + intros (_ & -> & ->). reflexivity.
  - destruct (truthy (enterprise argv)); simpl.
    + split.
      * destruct (billing_stats api _); [| discriminate].
        destruct (billing_repos api _); [| discriminate].
        destruct (run_loop_with _ _ _ _); discriminate.
      * intros ([H | H] & _); discriminate.
    + split.
      * intros H. injection H as <- <-. auto.
      * intros (_ & -> & ->). reflexivity.
Qed.

(** An iteration ends with an uncaught exception exactly when
    [iteration_aborts] says so, whatever the state. *)
Lemma loop_body_aborts (st : State) (i : nat) (r : RepoBilling) :
  if iteration_aborts argv api r
  then exists st', loop_body argv api st i r = Uncaught st'
  else exists st', loop_body argv api st i r = Normal st'
                   \/ loop_body argv api st i r = Continue st'.
Proof.
  open_iteration.
  destruct (truthy (org argv) && strict_neq (owner_of (name r)) (org argv)); simpl.
  - destruct (verbose argv); eauto.
  - destruct (try_configuration api _ _) as [[s c] |]; [| eauto].
    destruct (secret_fallback api (name r) s) as [s' | |]; [| eauto | eauto].
    unfold code_probe. destruct (negb c); [| eauto].
    destruct (listRecentAnalyses api _ _) as [a |]; [| eauto].
    destruct (analyses_data a) as [d |]; [| eauto].
    destruct (0 <? length d)%nat; eauto.
Qed.

Lemma run_loop_step (st : State) (i : nat) (r : RepoBilling) (rs : list RepoBilling) :
  run_loop argv api st i (r :: rs) =
  match loop_body argv api st i r with
  | Normal st' => run_loop argv api st' (S i) rs
  | Continue st' => run_loop argv api st' (S i) rs
  | Uncaught st' => LoopUncaught st'
  end.
Proof. reflexivity. Qed.

(** The loop runs to its end exactly when no iteration aborts. *)
Lemma run_loop_done_iff (rs : list RepoBilling) (st : State) (i : nat) :
  (exists st', run_loop argv api st i rs = LoopDone st') <->
  forallb (fun r => negb (iteration_aborts argv api r)) rs = true.
Proof.
  revert st i. induction rs as [| r rs IH]; intros st i.
  - simpl. split; [reflexivity | intros _; now exists st].
  - rewrite run_loop_step. simpl.
    pose proof (loop_body_aborts st i r) as K.
    destruct (iteration_aborts argv api r); simpl.
    + destruct K as [st' ->]. split; [intros [? H]; discriminate | discriminate].
    + destruct K as [st' [-> | ->]]; apply IH.
Qed.

(** [main] with its stages spelled out. *)
Lemma main_stages :
  main argv api =
  if help argv || negb (truthy (enterprise argv)) then Exited 1 usage
  else
    match billing_stats api (template (enterprise argv)) with
    | Throw => Rejected (send init (ReqBillingStats (template (enterprise argv))))
    | Ok stats =>
        match billing_repos api (template (enterprise argv)) with
        | Throw =>
            Rejected
              (send (log (log (log (log (send init
                 (ReqBillingStats (template (enterprise argv))))
                 ("Total active committers: "
                    ++ show_Z (total_advanced_security_committers stats)))
                 ("Max active committers: "
                    ++ show_Z (maximum_advanced_security_committers stats)))
                 ("Purchased committers: "
                    ++ show_Z (purchased_advanced_security_committers stats)))
                 "")
                 (ReqBillingRepos (template (enterprise argv))))
        | Ok repos =>
            match run_loop argv api
                    (loop_start argv stats (length (filteredRepos argv repos)))
                    0 (filteredRepos argv repos) with
            | LoopUncaught st => Rejected st
            | LoopDone st =>
                Returned (report argv st (length (filteredRepos argv repos)))
            end
        end
    end.
Proof. reflexivity. Qed.

(** X2.  A run returns exactly when the arguments are complete, both billing
    requests succeed and no considered repository aborts its iteration;
    otherwise it exits or is rejected.  One repository whose settings
    request throws is enough to lose the whole report. *)
Theorem returns_iff_no_iteration_aborts :
  (exists st, main argv api = Returned st) <->
  help argv = false
  /\ truthy (enterprise argv) = true
  /\ (exists stats, billing_stats api (template (enterprise argv)) = Ok stats)
  /\ exists repos,
      billing_repos api (template (enterprise argv)) = Ok repos
      /\ forallb (fun r => negb (iteration_aborts argv api r))
                 (filteredRepos argv repos) = true.
Proof.
  unfold main, main_with.
  destruct (help argv); simpl.
  { split; [intros [? H]; discriminate | intros (H & _); discriminate]. }
  destruct (truthy (enterprise argv)); simpl.
  2: { split; [intros [? H]; discriminate | intros (_ & H & _); discriminate]. }
  destruct (billing_stats api _) as [stats |].
  2: { split; [intros [? H]; discriminate |].
       intros (_ & _ & [? H] & _). discriminate. }
  destruct (billing_repos api _) as [repos |].
  2: { split; [intros [? H]; discriminate |].
       intros (_ & _ & _ & ? & H & _). discriminate. }
  fold (loop_body argv api). fold (run_loop argv api).
  match goal with
  | |- context [run_loop argv api ?s 0 _] => set (st0 := s)
  end.
  split.
  - intros [st H]. repeat split; eauto. exists repos. split; [reflexivity |].
    apply (run_loop_done_iff (filteredRepos argv repos) st0 0).
    destruct (run_loop argv api st0 0 _) as [stL |]; [eauto | discriminate].
  - intros (_ & _ & _ & repos' & E & F). injection E as <-.
    apply (run_loop_done_iff (filteredRepos argv repos) st0 0) in F.
    destruct F as [stL L]. rewrite L. eauto.
Qed.



(** X4.  An iteration aborts exactly when the configuration step succeeded
    without enabling secret scanning and then either the settings request
    throws, or it answers 200 with [security_and_analysis] or its
    [secret_scanning] missing.  A repository whose configuration enables
    secret scanning, and one whose settings answer another status, never
    abort. *)
Theorem iteration_aborts_iff (r : RepoBilling) :
  iteration_aborts argv api r = true <->
  owner_mismatch argv r = false
  /\ (exists c, try_configuration api (owner_of (name r)) (repo_of (name r))
                = Ok (false, c))
  /\ (repos_get api (owner_of (name r)) (repo_of (name r)) = Throw
      \/ exists resp,
          repos_get api (owner_of (name r)) (repo_of (name r)) = Ok resp
          /\ http_status resp = 200%Z
          /\ (security_and_analysis resp = None
              \/ exists sa, security_and_analysis resp = Some sa
                            /\ sa_secret_scanning sa = None)).
Proof.
  unfold iteration_aborts.
  destruct (owner_mismatch argv r); simpl.
  { split; [discriminate | intros (H & _); discriminate]. }
  destruct (try_configuration api _ _) as [[[|] c] |].
  - simpl. split; [discriminate |]. intros (_ & [c' H] & _). discriminate.
  - unfold secret_fallback. simpl.
    destruct (repos_get api _ _) as [resp |] eqn:G.
    + destruct (Z.eqb_spec (http_status resp) 200) as [E | E]; simpl.
      * destruct (security_and_analysis resp) as [sa |] eqn:Esa.
        -- destruct (sa_secret_scanning sa) as [ts |] eqn:Ets.
           ++ split.
              ** destruct (tool_status ts =? "enabled")%string; discriminate.
              ** intros (_ & _ & [H | (resp' & H & _ & [H' | (sa' & H' & H'')])]);
                   try discriminate; injection H as <-; congruence.
           ++ split; [| reflexivity]. intros _. repeat split; eauto.
              right. exists resp. repeat split; eauto.
        -- split; [| reflexivity]. intros _. repeat split; eauto.
           right. exists resp. repeat split; eauto.
      * split; [discriminate |].
        intros (_ & _ & [H | (resp' & H & S & _)]); [discriminate |].
        injection H as <-. contradiction.
    + split; [| reflexivity]. intros _. repeat split; eauto.
  - split; [discriminate |]. intros (_ & [c' H] & _). discriminate.
Qed.

(** A run that returns, in full: the loop ran from [loop_start] to its end
    and the report was printed. *)
Lemma main_returned_from_start (st : State) :
  main argv api = Returned st ->
  exists stats repos stL,
    billing_stats api (template (enterprise argv)) = Ok stats
    /\ billing_repos api (template (enterprise argv)) = Ok repos
    /\ run_loop argv api
         (loop_start argv stats (length (filteredRepos argv repos))) 0
         (filteredRepos argv repos) = LoopDone stL
    /\ st = report argv stL (length (filteredRepos argv repos)).
Proof.
  unfold main, main_with. intros H.
  destruct (help argv || negb (truthy (enterprise argv))); [discriminate |].
  destruct (billing_stats api _) as [stats |]; [| discriminate].
  destruct (billing_repos api _) as [repos |]; [| discriminate].
  exists stats, repos.
  fold (loop_body argv api) in H. fold (run_loop argv api) in H.
  change (run_loop argv api _ 0 (filteredRepos argv repos))
    with (run_loop argv api
            (loop_start argv stats (length (filteredRepos argv repos))) 0
            (filteredRepos argv repos)) in H.
  destruct (run_loop argv api _ 0 _) as [stL |]; [| discriminate].
  exists stL. injection H as <-. auto.
Qed.

(** ** What the loop prints *)

Lemma quiet_iteration_out (st : State) (i : nat) (r : RepoBilling) :
  verbose argv = false ->
  out (ctl_state (loop_body argv api st i r)) =
  out st ++ (if settings_rejected argv api r
             then [("Error fetching repo settings for " ++ name r)%string]
             else []).
Proof.
  intros V. open_iteration. rewrite V.
  destruct (truthy (org argv) && strict_neq (owner_of (name r)) (org argv)); simpl.
  - now rewrite app_nil_r.
  - destruct (try_configuration api _ _) as [[s c] |]; simpl;
      [| now rewrite app_nil_r].
    destruct (secret_fallback api (name r) s) as [s' | |]; simpl.
    + destruct (code_probe api _ _ c) as [c' | |]; simpl;
        destruct s, s', c; try destruct c'; simpl; now rewrite app_nil_r.
    + destruct s; reflexivity.
    + destruct s; simpl; now rewrite app_nil_r.
Qed.

Lemma quiet_loop_out (rs : list RepoBilling) (st : State) (i : nat) (st' : State) :
  verbose argv = false ->
  run_loop argv api st i rs = LoopDone st' ->
  out st' =
  out st ++ map (fun r => ("Error fetching repo settings for " ++ name r)%string)
                (filter (settings_rejected argv api) rs).
Proof.
  intros V. revert st i. induction rs as [| r rs IH]; intros st i H.
  - unfold run_loop in H. simpl in H. injection H as <-. simpl.
    now rewrite app_nil_r.
  - apply run_loop_cons in H. apply IH in H. rewrite H.
    rewrite (quiet_iteration_out st i r V). simpl.
    destruct (settings_rejected argv api r); simpl;
      rewrite <- app_assoc; reflexivity.
Qed.

(** X5.  Without verbose mode a run that returns prints the six opening lines,
    then one line [Error fetching repo settings for <name>] for each
    considered repository whose settings request answered a status other
    than 200, in listing order, then the four lines of the report, and
    nothing else. *)
Theorem quiet_output (st : State) :
  verbose argv = false ->
  main argv api = Returned st ->
  exists stats repos,
    billing_stats api (template (enterprise argv)) = Ok stats
    /\ billing_repos api (template (enterprise argv)) = Ok repos
    /\ out st =
       out (loop_start argv stats (length (filteredRepos argv repos)))
       ++ map (fun r => ("Error fetching repo settings for " ++ name r)%string)
              (filter (settings_rejected argv api) (filteredRepos argv repos))
       ++ [""%string;
           ("Successfully processed repositories: "
              ++ show_nat (successfullyProcessed st) ++ " out of "
              ++ show_nat (length (filteredRepos argv repos)))%string;
           count_line SecretScanning st;
           count_line CodeScanning st].
Proof.
  intros V H.
  destruct (main_returned_from_start st H) as (stats & repos & stL & S & R & L & E).
  exists stats, repos. split; [assumption |]. split; [assumption |].
  destruct (report_fields argv stL (length (filteredRepos argv repos)))
    as (Es & Ec & En & _).
  rewrite <- E in Es, Ec, En.
  unfold count_line. rewrite Es, Ec, En, E, report_out, V.
  rewrite (quiet_loop_out _ _ _ _ V L). rewrite app_nil_r.
  now rewrite <- app_assoc.
Qed.

Lemma verbose_iteration_out (st : State) (i : nat) (r : RepoBilling) :
  verbose argv = true ->
  exists printed,
    out (ctl_state (loop_body argv api st i r)) =
    out st ++ ("Repo " ++ show_nat (i + 1) ++ ": " ++ name r)%string :: printed.
Proof.
  intros V.
  destruct (loop_body_out argv api
              (log st ("Repo " ++ show_nat (i + 1) ++ ": " ++ name r)) i r)
    as [printed E].
  revert E. unfold loop_body, loop_body_with, mismatch_branch. rewrite V.
  intros E.
  destruct (truthy (org argv) && strict_neq (owner_of (name r)) (org argv)).
  - simpl. exists []. reflexivity.
  - destruct (try_configuration api _ _) as [[s c] |].
    + destruct (secret_fallback api (name r) s) as [s' | |].
      * destruct (code_probe api _ _ c) as [c' | |]; simpl;
          destruct s, s', c; try destruct c'; simpl;
          rewrite <- ?app_assoc; simpl; eexists; reflexivity.
      * destruct s; simpl; rewrite <- ?app_assoc; simpl; eexists; reflexivity.
      * destruct s; simpl; rewrite <- ?app_assoc; simpl; eexists; reflexivity.
    + simpl. rewrite <- ?app_assoc. simpl. eexists. reflexivity.
Qed.

Lemma verbose_loop_lines (rs : list RepoBilling) (st : State) (i : nat)
  (st' : State) (k : nat) (r : RepoBilling) :
  verbose argv = true ->
  run_loop argv api st i rs = LoopDone st' ->
  nth_error rs k = Some r ->
  In ("Repo " ++ show_nat (i + k + 1) ++ ": " ++ name r)%string (out st').
Proof.
  intros V. revert st i k. induction rs as [| r0 rs IH]; intros st i k H N.
  - destruct k; discriminate.
  - apply run_loop_cons in H. destruct k as [| k]; simpl in N.
    + injection N as ->.
      destruct (run_loop_out argv api _ _ _ _ H) as [p2 ->].
      destruct (verbose_iteration_out st i r V) as [p1 ->].
      replace (i + 0 + 1) with (i + 1) by lia.
      apply in_or_app. left. apply in_or_app. right. now left.
    + replace (i + S k + 1) with (S i + k + 1) by lia.
      now apply (IH _ _ _ H).
Qed.

(** X6.  In verbose mode a run that returns has printed, for every considered
    repository, the line [Repo <position>: <name>] with its position in the
    filtered list counted from 1, also for a repository the loop skips. *)
Theorem verbose_names_every_repository
  (st : State) (repos : list RepoBilling) (k : nat) (r : RepoBilling) :
  verbose argv = true ->
  main argv api = Returned st ->
  billing_repos api (template (enterprise argv)) = Ok repos ->
  nth_error (filteredRepos argv repos) k = Some r ->
  In ("Repo " ++ show_nat (k + 1) ++ ": " ++ name r)%string (out st).
Proof.
  intros V H R N.
  destruct (main_returned argv api st repos H R)
    as (st0 & stL & _ & _ & _ & _ & _ & L & ->).
  rewrite report_out. apply in_or_app. left.
  apply (verbose_loop_lines _ _ _ _ _ _ V L N).
Qed.

(** ** What the loop asks the service *)





(** ** Bounds and invariants *)

(** X8.  The number of successfully processed repositories a run reports never
    exceeds the number of repositories it reports as considered. *)
Theorem processed_at_most_considered (st : State) (repos : list RepoBilling) :
  main argv api = Returned st ->
  billing_repos api (template (enterprise argv)) = Ok repos ->
  successfullyProcessed st <= length (filteredRepos argv repos)
  /\ In ("Successfully processed repositories: "
           ++ show_nat (successfullyProcessed st) ++ " out of "
           ++ show_nat (length (filteredRepos argv repos)))%string (out st).
Proof.
  intros H R.
  destruct (main_returned argv api st repos H R)
    as (st0 & stL & _ & _ & C0 & _ & _ & L & ->).
  destruct (report_fields argv stL (length (filteredRepos argv repos)))
    as (_ & _ & -> & _).
  split.
  - rewrite (run_loop_counter argv api _ _ _ _ L), C0. simpl.
    apply filter_length_le.
  - rewrite report_out. apply in_or_app. right. apply in_or_app. left.
    simpl. auto.
Qed.

Lemma add_committers_appends (cs : list Committer) (s : JsSet) :
  exists added,
    add_committers s cs = s ++ added
    /\ Forall (fun l => In l (map user_login cs) /\ ~ In l s) added.
Proof.
  unfold add_committers. revert s. induction cs as [| c cs IH]; intros s; simpl.
  - exists []. rewrite app_nil_r. auto.
  - destruct (IH (set_add s (user_login c))) as (added & E & F).
    unfold set_add in *. destruct (set_has s (user_login c)) eqn:Has.
    + exists added. split; [assumption |].
      eapply Forall_impl; [| exact F]. simpl. tauto.
    + exists (user_login c :: added). split.
      * rewrite E, <- app_assoc. reflexivity.
      * constructor.
        -- split; [now left |]. intros Hin. apply set_has_In in Hin. congruence.
        -- eapply Forall_impl; [| exact F]. simpl. intros l [Hl Hn].
           split; [now right |]. intros Hin. apply Hn.
           apply in_or_app. now left.
Qed.

(** X9.  An iteration, however it ends, leaves the members of each set where
    they are and appends only logins of the repository's breakdown that
    were not members: no login is removed or moved. *)
Theorem iteration_only_appends (t : Tool) (st : State) (i : nat) (r : RepoBilling) :
  exists added,
    committers_of t (ctl_state (loop_body argv api st i r))
      = committers_of t st ++ added
    /\ Forall (fun l => In l (logins r) /\ ~ In l (committers_of t st)) added.
Proof.
  destruct (loop_body_effect argv api st i r) as (Es & Ec & _).
  assert (committers_of t (ctl_state (loop_body argv api st i r)) =
          if determined_enabled argv api t r
          then add_committers (committers_of t st)
                              (advanced_security_committers_breakdown r)
          else committers_of t st) as E
    by (destruct t; simpl; assumption).
  rewrite E. destruct (determined_enabled argv api t r).
  - apply add_committers_appends.
  - exists []. rewrite app_nil_r. auto.
Qed.

(** ** The precedence of the checks *)

(** X16.  The configuration step fails exactly when the request throws, the
    response has no [data], or the status is ["attached"] and the
    configuration is missing; with any other status both flags are false,
    whatever the configuration in the response says. *)
Theorem configuration_step_outcomes (owner : string) (repo : option string) :
  (try_configuration api owner repo = Throw <->
   code_security_configuration api owner repo = Throw
   \/ exists resp,
       code_security_configuration api owner repo = Ok resp
       /\ (config_data resp = None
           \/ exists data, config_data resp = Some data
                           /\ status data = "attached"%string
                           /\ configuration data = None))
  /\ (forall resp data,
         code_security_configuration api owner repo = Ok resp ->
         config_data resp = Some data ->
         status data <> "attached"%string ->
         try_configuration api owner repo = Ok (false, false)).
Proof.
  unfold try_configuration.
  destruct (code_security_configuration api owner repo) as [resp |].
  2: { split; [split; auto | discriminate]. }
  destruct (config_data resp) as [data |] eqn:D.
  2: { split.
       - split; [| reflexivity]. intros _. right. exists resp. auto.
       - intros resp' data' H H'. injection H as <-. congruence. }
  destruct (String.eqb_spec (status data) "attached") as [A | A].
  - destruct (configuration data) as [conf |] eqn:C.
    + split.
      * split; [discriminate |].
        intros [H | (resp' & H & [H' | (data' & H' & _ & H'')])];
          try discriminate; injection H as <-; congruence.
      * intros resp' data' H H' N. injection H as <-.
        rewrite D in H'. injection H' as <-. contradiction.
    + split.
      * split; [| reflexivity]. intros _. right. exists resp.
        split; [reflexivity |]. right. exists data. auto.
      * intros resp' data' H H' N. injection H as <-.
        rewrite D in H'. injection H' as <-. contradiction.
  - split; [| reflexivity]. split; [discriminate |].
    intros [H | (resp' & H & [H' | (data' & H' & A' & _)])];
      try discriminate; injection H as <-; congruence.
Qed.

(** X17.  Secret scanning is determined enabled for a repository exactly when
    its configuration step succeeds and either the attached configuration
    enables it or the settings request answers 200 with
    [security_and_analysis.secret_scanning.status] equal to ["enabled"]. *)
Theorem secret_scanning_enabled_iff (r : RepoBilling) :
  determined_enabled argv api SecretScanning r = true <->
  owner_mismatch argv r = false
  /\ exists s c,
      try_configuration api (owner_of (name r)) (repo_of (name r)) = Ok (s, c)
      /\ (s = true
          \/ exists resp sa ts,
              repos_get api (owner_of (name r)) (repo_of (name r)) = Ok resp
              /\ http_status resp = 200%Z
              /\ security_and_analysis resp = Some sa
              /\ sa_secret_scanning sa = Some ts
              /\ tool_status ts = "enabled"%string).
Proof.
  unfold determined_enabled, verdict, secret_verdict.
  destruct (owner_mismatch argv r).
  { split; [discriminate | intros [H _]; discriminate]. }
  destruct (try_configuration api _ _) as [[s c] |].
  2: { split; [discriminate | intros (_ & ? & ? & H & _); discriminate]. }
  unfold secret_fallback. destruct s; simpl.
  { split; [| reflexivity]. intros _. split; [reflexivity |].
    exists true, c. auto. }
  destruct (repos_get api _ _) as [resp |] eqn:G.
  2: { split; [discriminate |].
       intros (_ & s0 & c0 & E & [-> | (resp' & sa' & ts' & H & _)]);
         discriminate. }
  destruct (Z.eqb_spec (http_status resp) 200) as [S | S]; simpl.
  2: { split; [discriminate |].
       intros (_ & s0 & c0 & E & [-> | (resp' & sa' & ts' & H & S' & _)]);
         [discriminate | injection H as <-; contradiction]. }
  destruct (security_and_analysis resp) as [sa |] eqn:Esa.
  2: { split; [discriminate |].
       intros (_ & s0 & c0 & E & [-> | (resp' & sa' & ts' & H & _ & H1 & _)]);
         [discriminate | injection H as <-; congruence]. }
  destruct (sa_secret_scanning sa) as [ts |] eqn:Ets.
  2: { split; [discriminate |].
       intros (_ & s0 & c0 & E
               & [-> | (resp' & sa' & ts' & H & _ & H1 & H2 & _)]);
         [discriminate | injection H as <-; congruence]. }
  destruct (String.eqb_spec (tool_status ts) "enabled") as [T | T].
  - split; [| reflexivity]. intros _. split; [reflexivity |].
    exists false, c. split; [reflexivity |]. right. exists resp, sa, ts. auto.
  - split; [discriminate |].
    intros (_ & s0 & c0 & E
            & [-> | (resp' & sa' & ts' & H & _ & H1 & H2 & H3)]);
      [discriminate | injection H as <-; congruence].
Qed.

(** X18.  Code scanning is determined enabled for a repository exactly when its
    configuration step succeeds, the secret-scanning step lets the
    iteration go on, and either the attached configuration enables the
    default setup or the analyses probe returns at least one analysis.  A
    settings answer other than 200 therefore hides a code scanning that
    the configuration enables. *)
Theorem code_scanning_enabled_iff (r : RepoBilling) :
  determined_enabled argv api CodeScanning r = true <->
  owner_mismatch argv r = false
  /\ exists s c,
      try_configuration api (owner_of (name r)) (repo_of (name r)) = Ok (s, c)
      /\ (exists s', secret_fallback api (name r) s = Go s')
      /\ (c = true
          \/ exists analyses,
              listRecentAnalyses api (owner_of (name r)) (repo_of (name r))
                = Ok analyses
              /\ has_analysis analyses = true).
Proof.
  unfold determined_enabled, verdict, code_verdict.
  destruct (owner_mismatch argv r).
  { split; [discriminate | intros [H _]; discriminate]. }
  destruct (try_configuration api _ _) as [[s c] |].
  2: { split; [discriminate | intros (_ & ? & ? & H & _); discriminate]. }
  destruct (secret_fallback api (name r) s) as [s' | |] eqn:F0.
  2, 3: split; [discriminate |];
    intros (_ & s0 & c0 & E & [s1 F] & _); injection E as <- <-; congruence.
  unfold code_probe, has_analysis. destruct c; simpl.
  { split; [| reflexivity]. intros _. split; [reflexivity |].
    exists s, true. eauto. }
  destruct (listRecentAnalyses api _ _) as [a |].
  - destruct (analyses_data a) as [[| x d] |] eqn:D; simpl.
    + split; [discriminate |].
      intros (_ & s0 & c0 & E & _ & [-> | (a' & Ea & Ha)]);
        [discriminate |]. injection Ea as <-. rewrite D in Ha. discriminate.
    + split; [| reflexivity]. intros _. split; [reflexivity |].
      exists s, false. repeat split; eauto. right. exists a.
      rewrite D. auto.
    + split; [discriminate |].
      intros (_ & s0 & c0 & E & _ & [-> | (a' & Ea & Ha)]);
        [discriminate |]. injection Ea as <-. rewrite D in Ha. discriminate.
  - split; [discriminate |].
    intros (_ & s0 & c0 & E & _ & [-> | (a' & Ea & Ha)]); discriminate.
Qed.

End Runs.

(** ** What does not matter to a run *)

(** X11.  An empty [--org] is no filter: the run is the one made without the
    option. *)
Theorem empty_org_is_no_filter (argv : Argv) (api : Api) :
  main (with_org argv (Some ""%string)) api = main (with_org argv None) api.
Proof.
  unfold main, main_with, with_org. simpl.
  destruct (help argv || negb (truthy (enterprise argv))); [reflexivity |].
  destruct (billing_stats api _); [| reflexivity].
  destruct (billing_repos api _) as [repos |]; [| reflexivity].
  unfold filteredRepos. simpl.
  rewrite (run_loop_with_ext
             (loop_body (mkArgv (enterprise argv) (Some ""%string)
                                (verbose argv) (help argv)) api)
             (loop_body (mkArgv (enterprise argv) None
                                (verbose argv) (help argv)) api)).
  - destruct (run_loop_with _ _ _ _); reflexivity.
  - intros st i r. reflexivity.
Qed.

Lemma same_data_refl (st : State) : same_data st st.
Proof. unfold same_data. auto. Qed.

Lemma loop_body_verbose (argv : Argv) (api : Api) (v : bool)
  (a b : State) (i : nat) (r : RepoBilling) :
  same_data a b ->
  same_ctl (loop_body (with_verbose argv v) api a i r) (loop_body argv api b i r).
Proof.
  intros (Hr & Hs & Hc & Hn).
  unfold loop_body, loop_body_with, mismatch_branch, with_verbose. simpl.
  destruct (truthy (org argv) && strict_neq (owner_of (name r)) (org argv)).
  - destruct v, (verbose argv); unfold same_ctl, same_data; simpl; auto.
  - destruct (try_configuration api _ _) as [[s c] |].
    + destruct (secret_fallback api (name r) s) as [s' | |];
        [destruct (code_probe api _ _ c) as [c' | |] | |];
        destruct v, (verbose argv), s, c; try destruct s'; try destruct c';
        unfold same_ctl, same_data; simpl; rewrite ?Hr, ?Hs, ?Hc, ?Hn; auto.
    + destruct v, (verbose argv); unfold same_ctl, same_data; simpl;
        rewrite ?Hr, ?Hs, ?Hc, ?Hn; auto.
Qed.

Lemma run_loop_verbose (argv : Argv) (api : Api) (v : bool)
  (rs : list RepoBilling) (a b : State) (i : nat) :
  same_data a b ->
  same_loop (run_loop (with_verbose argv v) api a i rs) (run_loop argv api b i rs).
Proof.
  revert a b i. induction rs as [| r rs IH]; intros a b i H.
  - exact H.
  - unfold run_loop. simpl.
    fold (loop_body (with_verbose argv v) api). fold (loop_body argv api).
    fold (run_loop (with_verbose argv v) api). fold (run_loop argv api).
    pose proof (loop_body_verbose argv api v a b i r H) as K.
    destruct (loop_body (with_verbose argv v) api a i r),
             (loop_body argv api b i r); simpl in K; try contradiction;
      auto.
Qed.

Lemma report_same_data (argv1 argv2 : Argv) (a b : State) (n m : nat) :
  same_data a b -> same_data (report argv1 a n) (report argv2 b m).
Proof.
  intros (Hr & Hs & Hc & Hn).
  destruct (report_fields argv1 a n) as (Es & Ec & En & Er).
  destruct (report_fields argv2 b m) as (Es' & Ec' & En' & Er').
  unfold same_data. rewrite Es, Ec, En, Er, Es', Ec', En', Er'. auto.
Qed.

(** X12.  The verbose flag changes only what is printed: with it set either way,
    a run ends the same way (exit, rejection or return), having sent the
    same requests in the same order, with the same two sets and the same
    counter. *)
Theorem verbose_only_changes_output (argv : Argv) (api : Api) (v : bool) :
  same_outcome (main (with_verbose argv v) api) (main argv api).
Proof.
  unfold main, main_with.
  change (help (with_verbose argv v)) with (help argv).
  change (enterprise (with_verbose argv v)) with (enterprise argv).
  destruct (help argv || negb (truthy (enterprise argv))); [simpl; auto |].
  destruct (billing_stats api _) as [stats |];
    [| simpl; unfold same_data; simpl; auto].
  destruct (billing_repos api _) as [repos |];
    [| simpl; unfold same_data; simpl; auto].
  change (filteredRepos (with_verbose argv v) repos) with (filteredRepos argv repos).
  fold (loop_body (with_verbose argv v) api). fold (loop_body argv api).
  fold (run_loop (with_verbose argv v) api). fold (run_loop argv api).
  match goal with
  | |- context [run_loop argv api ?s 0 _] =>
      pose proof (run_loop_verbose argv api v (filteredRepos argv repos) s s 0
                    (same_data_refl s)) as K
  end.
  destruct (run_loop (with_verbose argv v) api _ 0 _),
           (run_loop argv api _ 0 _); simpl in K; try contradiction; simpl.
  - now apply report_same_data.
  - exact K.
Qed.

Lemma filter_Permutation {A : Type} (f : A -> bool) (l l' : list A) :
  Permutation l l' -> Permutation (filter f l) (filter f l').
Proof.
  induction 1 as [| x l l' _ IH | x y l | l l' l'' _ IH1 _ IH2]; simpl.
  - constructor.
  - destruct (f x); [now constructor | assumption].
  - destruct (f x), (f y); try reflexivity. apply perm_swap.
  - now transitivity (filter f l').
Qed.

Lemma filteredRepos_Permutation (argv : Argv) (repos repos' : list RepoBilling) :
  Permutation repos repos' ->
  Permutation (filteredRepos argv repos) (filteredRepos argv repos').
Proof.
  intros P. unfold filteredRepos. destruct (truthy (org argv)); [| assumption].
  now apply filter_Permutation.
Qed.

Lemma returned_counter (argv : Argv) (api : Api) (st : State)
  (repos : list RepoBilling) :
  main argv api = Returned st ->
  billing_repos api (template (enterprise argv)) = Ok repos ->
  successfullyProcessed st =
  length (filter (configuration_ok argv api) (filteredRepos argv repos)).
Proof.
  intros H R.
  destruct (main_returned argv api st repos H R)
    as (st0 & stL & _ & _ & C0 & _ & _ & L & ->).
  destruct (report_fields argv stL (length (filteredRepos argv repos)))
    as (_ & _ & -> & _).
  now rewrite (run_loop_counter argv api _ _ _ _ L), C0.
Qed.

(** X13.  The order in which the service lists the repositories does not matter
    to the result: if a run returns, the run on any reordering of the
    listing returns too, with the same counter, the same members in each
    set and the same reported counts. *)
Theorem listing_order_irrelevant
  (argv : Argv) (api : Api) (repos repos' : list RepoBilling) (st : State) :
  Permutation repos repos' ->
  main argv (with_repos api repos) = Returned st ->
  exists st',
    main argv (with_repos api repos') = Returned st'
    /\ successfullyProcessed st' = successfullyProcessed st
    /\ forall t,
        Permutation (committers_of t st) (committers_of t st')
        /\ count_line t st' = count_line t st.
Proof.
  intros P H.
  pose proof (filteredRepos_Permutation argv repos repos' P) as PF.
  assert (exists st', main argv (with_repos api repos') = Returned st') as [st' H'].
  { rewrite main_stages in H. rewrite main_stages.
    change (billing_stats (with_repos api repos) (template (enterprise argv)))
      with (billing_stats api (template (enterprise argv))) in H.
    change (billing_stats (with_repos api repos') (template (enterprise argv)))
      with (billing_stats api (template (enterprise argv))).
    change (billing_repos (with_repos api repos) (template (enterprise argv)))
      with (Ok repos) in H.
    change (billing_repos (with_repos api repos') (template (enterprise argv)))
      with (Ok repos').
    destruct (help argv || negb (truthy (enterprise argv))); [discriminate |].
    destruct (billing_stats api _) as [stats |]; [| discriminate].
    destruct (run_loop argv (with_repos api repos) _ 0 _) as [stL |] eqn:L;
      [| discriminate].
    assert (forallb (fun r => negb (iteration_aborts argv api r))
                    (filteredRepos argv repos') = true) as F.
    { apply forallb_forall. intros r Hr.
      apply (Permutation_in _ (Permutation_sym PF)) in Hr.
      pose proof (proj1 (run_loop_done_iff argv (with_repos api repos) _ _ _)
                    (ex_intro _ stL L)) as F0.
      exact (proj1 (forallb_forall _ _) F0 r Hr). }
    destruct (proj2 (run_loop_done_iff argv (with_repos api repos')
                       (filteredRepos argv repos')
                       (loop_start argv stats (length (filteredRepos argv repos')))
                       0) F) as [stL' ->].
    eauto. }
  exists st'. split; [assumption |].
  assert (forall t, Permutation (committers_of t st) (committers_of t st')) as PS.
  { intros t.
    destruct (returned_sets argv (with_repos api repos) t st repos H eq_refl)
      as [ND M].
    destruct (returned_sets argv (with_repos api repos') t st' repos' H' eq_refl)
      as [ND' M'].
    apply NoDup_Permutation; try assumption.
    intros login. rewrite M, M'. split.
    - intros (r & Hr & D & Hl). exists r. split; [| auto].
      apply (Permutation_in _ PF Hr).
    - intros (r & Hr & D & Hl). exists r. split; [| auto].
      apply (Permutation_in _ (Permutation_sym PF) Hr). }
  split.
  - rewrite (returned_counter argv (with_repos api repos) st repos H eq_refl).
    rewrite (returned_counter argv (with_repos api repos') st' repos' H' eq_refl).
    symmetry. apply Permutation_length.
    now apply (filter_Permutation (configuration_ok argv api)).
  - intros t. split; [apply PS |].
    pose proof (Permutation_length (PS t)) as E.
    destruct t; simpl in *; now rewrite E.
Qed.

(** ** The throttling handlers *)

(** X14.  The rate-limit handler asks for a retry on the first attempt only:
    among the attempts numbered 0 to [n] exactly one is retried.  The
    secondary-rate-limit handler never asks for one. *)
Theorem rate_limit_retries_once
  (retryAfter : Z) (options : RequestOptions) (octokit : Logger) (n : nat) :
  (forall retryCount,
      asks_retry (onRateLimit retryAfter options octokit retryCount) = true
      <-> (retryCount < 1)%Z)
  /\ length (filter (fun k => asks_retry (onRateLimit retryAfter options octokit
                                                      (Z.of_nat k)))
                    (seq 0 (S n))) = 1
  /\ asks_retry (onSecondaryRateLimit retryAfter options octokit) = false.
Proof.
  assert (forall retryCount,
             asks_retry (onRateLimit retryAfter options octokit retryCount) = true
             <-> (retryCount < 1)%Z) as R.
  { intros retryCount. unfold asks_retry, onRateLimit.
    destruct (Z.ltb_spec retryCount 1); simpl; split;
      (reflexivity || discriminate || lia). }
  split; [exact R |]. split; [| reflexivity].
  change (seq 0 (S n)) with (0 :: seq 1 n). cbn [filter].
  assert (asks_retry (onRateLimit retryAfter options octokit (Z.of_nat 0)) = true)
    as -> by (apply R; lia).
  cbn [length]. f_equal.
  assert (forall m k, 1 <= k ->
             filter (fun k => asks_retry (onRateLimit retryAfter options octokit
                                                      (Z.of_nat k)))
                    (seq k m) = []) as Z0.
  { induction m as [| m IH]; intros k Hk; simpl; [reflexivity |].
    destruct (asks_retry _) eqn:E.
    - apply R in E. lia.
    - apply IH. lia. }
  now rewrite Z0 by lia.
Qed.

(** X15.  With the logger as [main] leaves it after lines 56-57, the handlers
    print no warning: the secondary-rate-limit handler prints nothing, and
    the rate-limit handler prints only what [info] prints for the retry
    line, and only when it asks for the retry. *)
Theorem silenced_handlers_print_no_warning
  (retryAfter : Z) (options : RequestOptions) (octokit : Logger) (retryCount : Z) :
  fst (onSecondaryRateLimit retryAfter options (silence octokit)) = []
  /\ fst (onRateLimit retryAfter options (silence octokit) retryCount) =
     if asks_retry (onRateLimit retryAfter options (silence octokit) retryCount)
     then log_info octokit
            ("Retrying after " ++ show_Z retryAfter ++ " seconds!")%string
     else [].
Proof.
  split; [reflexivity |].
  unfold onRateLimit, asks_retry, silence. simpl.
  destruct (retryCount <? 1)%Z; reflexivity.
Qed.

(** ** The further properties at concrete inputs *)

Lemma exit_iff_help_or_no_enterprise_witness :
  truthy (enterprise (mkArgv (Some ""%string) None false false)) = false
  /\ main (mkArgv (Some ""%string) None false false) Sample.api = Exited 1 usage.
Proof.
  split; [reflexivity |].
  apply (proj2 (exit_iff_help_or_no_enterprise
                  (mkArgv (Some ""%string) None false false) Sample.api 1 usage)).
  split; [right; reflexivity | split; reflexivity].
Defined.

Lemma returns_iff_no_iteration_aborts_witness :
  forallb (fun r => negb (iteration_aborts Sample.chatty Sample.api r))
          (filteredRepos Sample.chatty Sample.repos) = true
  /\ exists st, main Sample.chatty Sample.api = Returned st.
Proof.
  split; [vm_compute; reflexivity |].
  apply (proj2 (returns_iff_no_iteration_aborts Sample.chatty Sample.api)).
  split; [reflexivity |]. split; [reflexivity |]. split.
  - exists Sample.stats. reflexivity.
  - exists Sample.repos. split; [reflexivity | vm_compute; reflexivity].
Defined.


Lemma iteration_aborts_iff_witness :
  repos_get Sample.api_settings_down "acme" (Some "repo1"%string) = Throw
  /\ iteration_aborts Sample.quiet Sample.api_settings_down Sample.repo1 = true.
Proof.
  split; [reflexivity |].
  apply (proj2 (iteration_aborts_iff Sample.quiet Sample.api_settings_down
                  Sample.repo1)).
  split; [vm_compute; reflexivity |]. split.
  - exists false. vm_compute. reflexivity.
  - left. vm_compute. reflexivity.
Defined.

Lemma quiet_output_witness :
  verbose Sample.quiet = false
  /\ exists stats repos,
      billing_stats (Sample.api_settings_404 "enabled")
                    (template (enterprise Sample.quiet)) = Ok stats
      /\ billing_repos (Sample.api_settings_404 "enabled")
                       (template (enterprise Sample.quiet)) = Ok repos
      /\ out (Sample.final (main Sample.quiet (Sample.api_settings_404 "enabled"))) =
         out (loop_start Sample.quiet stats
                (length (filteredRepos Sample.quiet repos)))
         ++ map (fun r => ("Error fetching repo settings for " ++ name r)%string)
                (filter (settings_rejected Sample.quiet
                           (Sample.api_settings_404 "enabled"))
                        (filteredRepos Sample.quiet repos))
         ++ [""%string;
             ("Successfully processed repositories: "
                ++ show_nat
                     (successfullyProcessed
                        (Sample.final
                           (main Sample.quiet (Sample.api_settings_404 "enabled"))))
                ++ " out of "
                ++ show_nat (length (filteredRepos Sample.quiet repos)))%string;
             count_line SecretScanning
               (Sample.final (main Sample.quiet (Sample.api_settings_404 "enabled")));
             count_line CodeScanning
               (Sample.final (main Sample.quiet (Sample.api_settings_404 "enabled")))].
Proof.
  split; [reflexivity |].
  refine (quiet_output Sample.quiet (Sample.api_settings_404 "enabled")
            (Sample.final (main Sample.quiet (Sample.api_settings_404 "enabled")))
            _ _).
  - reflexivity.
  - vm_compute. reflexivity.
Defined.

Lemma verbose_names_every_repository_witness :
  nth_error (filteredRepos Sample.only_acme Sample.repos) 1 = Some Sample.repo2
  /\ In ("Repo " ++ show_nat (1 + 1) ++ ": " ++ name Sample.repo2)%string
        (out (Sample.final (main Sample.only_acme Sample.api))).
Proof.
  split; [vm_compute; reflexivity |].
  refine (verbose_names_every_repository Sample.only_acme Sample.api
            (Sample.final (main Sample.only_acme Sample.api))
            Sample.repos 1 Sample.repo2 _ _ _ _).
  - reflexivity.
  - vm_compute. reflexivity.
  - reflexivity.
  - vm_compute. reflexivity.
Defined.


Lemma processed_at_most_considered_witness :
  main Sample.chatty Sample.api
    = Returned (Sample.final (main Sample.chatty Sample.api))
  /\ successfullyProcessed (Sample.final (main Sample.chatty Sample.api))
     <= length (filteredRepos Sample.chatty Sample.repos).
Proof.
  split; [vm_compute; reflexivity |].
  refine (proj1 (processed_at_most_considered Sample.chatty Sample.api
                   (Sample.final (main Sample.chatty Sample.api))
                   Sample.repos _ _)).
  - vm_compute. reflexivity.
  - reflexivity.
Defined.


Lemma listing_order_irrelevant_witness :
  Permutation Sample.repos [Sample.repo3; Sample.repo1; Sample.repo2]
  /\ exists st',
      main Sample.chatty
           (with_repos Sample.api [Sample.repo3; Sample.repo1; Sample.repo2])
        = Returned st'
      /\ successfullyProcessed st' =
         successfullyProcessed
           (Sample.final (main Sample.chatty (with_repos Sample.api Sample.repos)))
      /\ forall t,
          Permutation
            (committers_of t
               (Sample.final (main Sample.chatty (with_repos Sample.api Sample.repos))))
            (committers_of t st')
          /\ count_line t st' =
             count_line t
               (Sample.final (main Sample.chatty (with_repos Sample.api Sample.repos))).
Proof.
  assert (Permutation Sample.repos [Sample.repo3; Sample.repo1; Sample.repo2]) as P.
  { unfold Sample.repos.
    apply (Permutation_cons_app [Sample.repo3] [Sample.repo2] Sample.repo1).
    apply perm_swap. }
  split; [exact P |].
  refine (listing_order_irrelevant Sample.chatty Sample.api Sample.repos
            [Sample.repo3; Sample.repo1; Sample.repo2]
            (Sample.final (main Sample.chatty (with_repos Sample.api Sample.repos)))
            P _).
  vm_compute. reflexivity.
Defined.

Lemma rate_limit_retries_once_witness :
  (0 < 1)%Z
  /\ asks_retry (onRateLimit 60 (mkRequestOptions "GET" "/repos/acme/repo1")
                             (mkLogger (fun m => [m]) (fun m => [m]) (fun m => [m]))
                             0) = true.
Proof.
  split; [reflexivity |].
  apply (proj2 (proj1 (rate_limit_retries_once
                         60 (mkRequestOptions "GET" "/repos/acme/repo1")
                         (mkLogger (fun m => [m]) (fun m => [m]) (fun m => [m]))
                         0) 0%Z)).
  reflexivity.
Defined.

Lemma configuration_step_outcomes_witness :
  code_security_configuration Sample.api "acme" (Some "repo2"%string)
    = Ok (mkConfigResponse (Some (mkConfigData "detached" None)))
  /\ try_configuration Sample.api "acme" (Some "repo2"%string) = Ok (false, false).
Proof.
  split; [reflexivity |].
  apply (proj2 (configuration_step_outcomes Sample.api "acme" (Some "repo2"%string))
           (mkConfigResponse (Some (mkConfigData "detached" None)))
           (mkConfigData "detached" None)).
  - reflexivity.
  - reflexivity.
  - discriminate.
Defined.

Lemma secret_scanning_enabled_iff_witness :
  try_configuration Sample.api_probe_down "acme" (Some "repo1"%string)
    = Ok (false, false)
  /\ determined_enabled Sample.quiet Sample.api_probe_down SecretScanning
       Sample.repo1 = true.
Proof.
  split; [reflexivity |].
  apply (proj2 (secret_scanning_enabled_iff Sample.quiet Sample.api_probe_down
                  Sample.repo1)).
  split; [vm_compute; reflexivity |].
  exists false, false. split; [vm_compute; reflexivity |]. right.
  exists (mkRepoSettings 200
            (Some (mkSecurityAndAnalysis (Some (mkToolStatus "enabled"))))),
    (mkSecurityAndAnalysis (Some (mkToolStatus "enabled"))),
    (mkToolStatus "enabled").
  repeat split; vm_compute; reflexivity.
Defined.

Lemma code_scanning_enabled_iff_witness :
  listRecentAnalyses Sample.api "acme" (Some "repo2"%string) = Sample.analyses 1
  /\ determined_enabled Sample.chatty Sample.api CodeScanning Sample.repo2 = true.
Proof.
  split; [reflexivity |].
  apply (proj2 (code_scanning_enabled_iff Sample.chatty Sample.api Sample.repo2)).
  split; [vm_compute; reflexivity |].
  exists false, false. split; [vm_compute; reflexivity |]. split.
  - exists false. vm_compute. reflexivity.
  - right. exists (mkAnalysesResponse (Some [mkAnalysis 1])).
    split; vm_compute; reflexivity.
Defined.

(** ** The counter and the configuration fetch *)

(** The body of the [try] runs to its end exactly for the repositories
    whose configuration fetch succeeds. *)
Lemma configuration_ok_fetch (argv : Argv) (api : Api) (r : RepoBilling) :
  configuration_ok argv api r = configuration_fetch_succeeds argv api r.
Proof.
  unfold configuration_ok, configuration_fetch_succeeds, try_configuration,
    response_readable.
  destruct (negb (owner_mismatch argv r)); [simpl | reflexivity].
  destruct (code_security_configuration api _ _) as [resp |]; [| reflexivity].
  destruct (config_data resp) as [data |]; [| reflexivity].
  destruct (status data =? "attached")%string; [| reflexivity].
  destruct (configuration data); reflexivity.
Qed.

(** C5.  In the iteration of every considered repository the counter of
    successfully processed repositories goes up by one when the
    configuration fetch of step 1 succeeds (the request is sent and returns
    a response the program can read) and stays as it is otherwise.  It goes
    up only when the request returned a response; a thrown request is never
    counted.  Whether it goes up does not depend on the status or on the
    tool settings of a configuration that is there: a returned response
    that carries [data] is counted unless its status is ["attached"] and
    the configuration object is missing.  Hence a run that returns ends
    with the counter equal to the number of considered repositories whose
    configuration fetch succeeded. *)
Theorem counter_counts_successful_fetches (argv : Argv) (api : Api) :
  (forall st i r,
      successfullyProcessed (ctl_state (loop_body argv api st i r)) =
      successfullyProcessed st
      + (if configuration_fetch_succeeds argv api r then 1 else 0))
  /\ (forall st i r,
         successfullyProcessed (ctl_state (loop_body argv api st i r))
           <> successfullyProcessed st ->
         owner_mismatch argv r = false
         /\ exists resp,
             code_security_configuration api (owner_of (name r)) (repo_of (name r))
               = Ok resp)
  /\ (forall st i r,
         owner_mismatch argv r = false ->
         code_security_configuration api (owner_of (name r)) (repo_of (name r))
           = Throw ->
         successfullyProcessed (ctl_state (loop_body argv api st i r))
           = successfullyProcessed st)
  /\ (forall st i r resp data,
         owner_mismatch argv r = false ->
         code_security_configuration api (owner_of (name r)) (repo_of (name r))
           = Ok resp ->
         config_data resp = Some data ->
         (successfullyProcessed (ctl_state (loop_body argv api st i r))
            = successfullyProcessed st + 1
          <-> (status data = "attached"%string -> configuration data <> None)))
  /\ (forall st repos,
         main argv api = Returned st ->
         billing_repos api (template (enterprise argv)) = Ok repos ->
         successfullyProcessed st =
         length (filter (configuration_fetch_succeeds argv api)
                        (filteredRepos argv repos))).
Proof.
  assert (forall st i r,
             successfullyProcessed (ctl_state (loop_body argv api st i r)) =
             successfullyProcessed st
             + (if configuration_fetch_succeeds argv api r then 1 else 0)) as Step.
  { intros st i r. destruct (loop_body_effect argv api st i r) as (_ & _ & E).
    now rewrite <- configuration_ok_fetch. }
  split; [exact Step |]. split; [| split; [| split]].
  - intros st i r. rewrite Step. unfold configuration_fetch_succeeds.
    destruct (owner_mismatch argv r); simpl; [lia |].
    destruct (code_security_configuration api _ _) as [resp |]; [| lia].
    intros _. eauto.
  - intros st i r M T. rewrite Step. unfold configuration_fetch_succeeds.
    rewrite M, T. simpl. lia.
  - intros st i r resp data M Hreq Hdata. rewrite Step.
    unfold configuration_fetch_succeeds, response_readable.
    rewrite M, Hreq, Hdata. simpl.
    destruct (String.eqb_spec (status data) "attached") as [A | A].
    + destruct (configuration data) as [conf |].
      * split; [intros _ _; discriminate | intros _; reflexivity].
      * split; [lia | intros H; now destruct (H A)].
    + split; [intros _ A'; contradiction | intros _; reflexivity].
  - intros st repos H R.
    rewrite (returned_counter argv api st repos H R).
    f_equal. apply filter_ext. intros r. apply configuration_ok_fetch.
Qed.

Lemma counter_counts_successful_fetches_witness :
  main Sample.chatty Sample.api
    = Returned (Sample.final (main Sample.chatty Sample.api))
  /\ billing_repos Sample.api (template (enterprise Sample.chatty))
     = Ok Sample.repos
  /\ successfullyProcessed (Sample.final (main Sample.chatty Sample.api)) =
     length (filter (configuration_fetch_succeeds Sample.chatty Sample.api)
                    (filteredRepos Sample.chatty Sample.repos))
  /\ length (filter (configuration_fetch_succeeds Sample.chatty Sample.api)
                    (filteredRepos Sample.chatty Sample.repos)) = 2.
Proof.
  split; [vm_compute; reflexivity |]. split; [reflexivity |]. split.
  - refine (proj2 (proj2 (proj2 (proj2
              (counter_counts_successful_fetches Sample.chatty Sample.api))))
              (Sample.final (main Sample.chatty Sample.api)) Sample.repos _ _).
    + vm_compute. reflexivity.
    + reflexivity.
  - vm_compute. reflexivity.
Defined.

(** ** A settings request that fails *)

(** C2.  The client reports a non-success status of the direct-settings
    request by throwing, and the request of lines 153-156 is outside any
    [try].  So when that request fails for a repository, the test of line
    158 is never reached: no error line is printed in either mode, the
    iteration ends [main] with the exception, and the loop does not go on
    to the repositories that follow. *)
Theorem settings_failure_rejects_run
  (argv : Argv) (api : Api) (st : State) (i : nat) (r : RepoBilling)
  (rs : list RepoBilling) (c : bool) :
  owner_mismatch argv r = false ->
  try_configuration api (owner_of (name r)) (repo_of (name r)) = Ok (false, c) ->
  repos_get api (owner_of (name r)) (repo_of (name r)) = Throw ->
  exists st',
    loop_body argv api st i r = Uncaught st'
    /\ run_loop argv api st i (r :: rs) = LoopUncaught st'
    /\ out st' =
         out st
         ++ (if verbose argv
             then [("Repo " ++ show_nat (i + 1) ++ ": " ++ name r)%string]
             else [])
    /\ requests st' =
         requests st
         ++ [ReqConfiguration (owner_of (name r)) (repo_of (name r));
             ReqRepoSettings (owner_of (name r)) (repo_of (name r))]
    /\ secretProtectionCommitters st' = secretProtectionCommitters st
    /\ codeScanningCommitters st' = codeScanningCommitters st
    /\ successfullyProcessed st' = successfullyProcessed st + 1.
Proof.
  intros M T G. unfold owner_mismatch in M.
  assert (secret_fallback api (name r) false = Abort) as F.
  { unfold secret_fallback. simpl. now rewrite G. }
  unfold run_loop. simpl. fold (loop_body argv api).
  unfold loop_body, loop_body_with. rewrite M, T. simpl. rewrite F.
  eexists. split; [reflexivity |].
  destruct (verbose argv); simpl; rewrite <- ?app_assoc, ?app_nil_r;
    repeat split; reflexivity.
Qed.

Lemma settings_failure_rejects_run_witness :
  repos_get Sample.api_settings_down "acme" (Some "repo1"%string) = Throw
  /\ exists st',
      run_loop Sample.quiet Sample.api_settings_down init 0
               [Sample.repo1; Sample.repo2] = LoopUncaught st'
      /\ out st' = []
      /\ requests st' = [ReqConfiguration "acme" (Some "repo1"%string);
                         ReqRepoSettings "acme" (Some "repo1"%string)].
Proof.
  split; [reflexivity |].
  destruct (settings_failure_rejects_run Sample.quiet Sample.api_settings_down
              init 0 Sample.repo1 [Sample.repo2] false eq_refl eq_refl eq_refl)
    as (st' & _ & L & O & Rq & _).
  exists st'. repeat split; assumption.
Defined.

(** The whole run on that input: [main] is rejected after the six opening
    lines; the second repository is never looked at and no report is
    printed. *)
Example settings_down_run :
  main Sample.quiet Sample.api_settings_down =
  Rejected
    (mkState
       ["Total active committers: 50"%string; "Max active committers: 60"%string;
        "Purchased committers: 70"%string; ""%string;
        "Number of repos: 2"%string; ""%string]
       [ReqBillingStats "ent"; ReqBillingRepos "ent";
        ReqConfiguration "acme" (Some "repo1"%string);
        ReqRepoSettings "acme" (Some "repo1"%string)]
       [] [] 1).
Proof. vm_compute. reflexivity. Qed.
